(** * pact-demos: the epistemic self-assessment core of the demo agents

    A shallow embedding of [agents/base_agent.py] and of its three
    subclasses ([customer_care_agent.py], [mental_health_agent.py],
    [voice_ai_agent.py]), with the properties of the decision pipeline.

    Conventions of the embedding.
    - Python [str] is [string]; the texts of the repository are ASCII, and
      [str.lower] is modelled on ASCII letters.  The module [Unicode] has
      [can_handle] on strings of code points, with the lower-casing of
      Unicode as a parameter; the two agree on ASCII text.
    - Python [float] is [Q], the rational a float denotes; only order
      comparisons are made on them.
    - A method of an agent is a computation in the monad [M]: it reads and
      writes the agent and may raise.
    - [set] is [gset string]; the delegation [dict] is a [gmap]; a [dict]
      that is iterated is an association list in insertion order. *)

From Stdlib Require Import Ascii String QArith.
From stdpp Require Import gmap strings list.

Local Open Scope string_scope.
Local Open Scope list_scope.

(** ** Strings *)

Module Str.

(** [c.lower()] on one character. *)
Definition lower_ascii (c : ascii) : ascii :=
  let n := Ascii.nat_of_ascii c in
  if (65 <=? n)%nat && (n <=? 90)%nat then Ascii.ascii_of_nat (n + 32) else c.

(** [c.upper()] on one character. *)
Definition upper_ascii (c : ascii) : ascii :=
  let n := Ascii.nat_of_ascii c in
  if (97 <=? n)%nat && (n <=? 122)%nat then Ascii.ascii_of_nat (n - 32) else c.

Definition is_alpha (c : ascii) : bool :=
  let n := Ascii.nat_of_ascii c in
  ((65 <=? n)%nat && (n <=? 90)%nat) || ((97 <=? n)%nat && (n <=? 122)%nat).

(** [s.lower()] *)
Fixpoint lower (s : string) : string :=
  match s with
  | EmptyString => EmptyString
  | String c s' => String (lower_ascii c) (lower s')
  end.

(** [s.title()]: a letter that follows a non-letter is upper-cased, every
    other letter is lower-cased. *)
Fixpoint title_from (after_letter : bool) (s : string) : string :=
  match s with
  | EmptyString => EmptyString
  | String c s' =>
      String (if after_letter then lower_ascii c else upper_ascii c)
             (title_from (is_alpha c) s')
  end.

Definition title (s : string) : string := title_from false s.

(** [needle in hay] *)
Fixpoint contains (needle hay : string) : bool :=
  match hay with
  | EmptyString => String.prefix needle EmptyString
  | String _ hay' => String.prefix needle hay || contains needle hay'
  end.

(** [needle] occurs in [hay] as a contiguous block. *)
Definition substring_of (needle hay : string) : Prop :=
  exists pre post, hay = pre +:+ needle +:+ post.

(** [any(x in s for x in xs)] *)
Definition any_in (xs : list string) (s : string) : bool :=
  existsb (fun x => contains x s) xs.

End Str.

(** ** Floats as rationals *)

(** [x < y] on floats. *)
Definition Qltb (x y : Q) : bool := negb (Qle_bool y x).

(** ** The primitives of [pact_ax] and [pact_hx] the agents are built on

    The agents import their data types from two packages that are not among
    the sources of this repository.  Their shape is taken from the data model
    of the specification. *)

(** Modelled from the spec: [ConfidenceLevel] of [pact_ax.primitives.epistemic],
    an ordered enumeration UNKNOWN < LOW < MODERATE < CONFIDENT < CERTAIN. *)
Inductive ConfidenceLevel : Type :=
  | UNKNOWN | LOW | MODERATE | CONFIDENT | CERTAIN.

#[global] Instance ConfidenceLevel_eq_dec : EqDecision ConfidenceLevel.
Proof. solve_decision. Defined.

(** Modelled from the spec: [KnowledgeBoundary] of
    [pact_ax.primitives.epistemic], with its only mutator [update_boundary],
    which inserts into the respective set. *)
Module KnowledgeBoundary.
Record t : Type := mk {
  domain : string;
  proficiency : ConfidenceLevel;
  known_capabilities : gset string;
  known_limits : gset string
}.

Definition update_boundary
    (learned_limit learned_capability : option string) (b : t) : t :=
  let b1 :=
    match learned_limit with
    | Some l => mk (domain b) (proficiency b) (known_capabilities b)
                   ({[ l ]} ∪ known_limits b)
    | None => b
    end in
  match learned_capability with
  | Some c => mk (domain b1) (proficiency b1)
                 ({[ c ]} ∪ known_capabilities b1) (known_limits b1)
  | None => b1
  end.
End KnowledgeBoundary.

(** Modelled from the spec: [DelegationMap] of
    [pact_ax.primitives.epistemic], a mapping from a domain to a delegate id
    and a reason; [add_delegation] overwrites, [get_delegate] looks up. *)
Module DelegationMap.
Record t : Type := mk { entries : gmap string (string * string) }.

Definition empty : t := mk ∅.

Definition add_delegation (domain delegate_id reason : string) (m : t) : t :=
  mk (<[ domain := (delegate_id, reason) ]> (entries m)).

Definition get_delegate (domain : string) (m : t) : option string :=
  fst <$> (entries m !! domain).
End DelegationMap.

(** Modelled from the spec: [Query] of [pact_ax.coordination.humility_aware]. *)
Module Query.
Record t : Type := mk {
  content : string;
  domain : string;
  required_confidence : Q
}.
End Query.

(** Modelled from the spec: [EpistemicState] of
    [pact_ax.primitives.epistemic].  A field the constructor call leaves
    out is [None].  The boundary and the delegation map a state refers to
    are the agent's objects; a state is only read, so it holds their value
    at the time it is built. *)
Module EpistemicState.
Record t : Type := mk {
  value : option string;
  confidence : ConfidenceLevel;
  uncertainty_reason : option string;
  boundary : option KnowledgeBoundary.t;
  delegation_map : option DelegationMap.t;
  source : option string
}.

(** [state.get_delegate(domain)]: resolved through the delegation map the
    state carries, none without one. *)
Definition get_delegate (domain : string) (st : t) : option string :=
  match delegation_map st with
  | Some m => DelegationMap.get_delegate domain m
  | None => None
  end.
End EpistemicState.

Module UnknownResponse.
Record t : Type := mk {
  reason : string;
  suggested_delegate : option string;
  can_learn : option bool  (* [None]: the argument is left out *)
}.
End UnknownResponse.

(** Modelled from the spec: what [pact_ax.primitives.epistemic] leaves open.
    The scores of the confidence levels lie in [0,1] and follow the order
    of the levels; the state of an [UnknownResponse] has confidence UNKNOWN
    and carries the reason. *)
Class PactAx : Type := {
  level_value : ConfidenceLevel -> Q;
  level_value_range : forall l, (0 <= level_value l)%Q /\ (level_value l <= 1)%Q;
  level_value_order :
    (level_value UNKNOWN < level_value LOW)%Q /\
    (level_value LOW < level_value MODERATE)%Q /\
    (level_value MODERATE < level_value CONFIDENT)%Q /\
    (level_value CONFIDENT < level_value CERTAIN)%Q;
  to_epistemic_state : UnknownResponse.t -> EpistemicState.t;
  to_epistemic_state_confidence :
    forall u, EpistemicState.confidence (to_epistemic_state u) = UNKNOWN;
  to_epistemic_state_reason :
    forall u, EpistemicState.uncertainty_reason (to_epistemic_state u)
              = Some (UnknownResponse.reason u)
}.

(** Modelled from the spec: [EpistemicState.should_defer], the transition to
    the deferring outcome: the score of the state's confidence is strictly
    below the required confidence. *)
Definition should_defer `{PactAx}
    (st : EpistemicState.t) (domain : string) (required_confidence : Q) : bool :=
  Qltb (level_value (EpistemicState.confidence st)) required_confidence.

(** The expression layer of [pact_hx]. *)
Inductive Domain : Type := CUSTOMER_CARE | MENTAL_HEALTH | VOICE_AI.
Inductive CommunicationStyle : Type := PROFESSIONAL | CLINICAL | CONVERSATIONAL.

Module ExpressionContext.
Record t : Type := mk {
  domain : Domain;
  style : CommunicationStyle;
  urgency : string
}.
End ExpressionContext.

(** The response [dict] of the renderer; a key may be missing. *)
Module Response.
Record t : Type := mk {
  message : option string;
  confidence : option Q;
  should_escalate : option bool;
  delegate_to : option string;
  safety_override : option bool
}.
End Response.

(** The collaborators of [pact_hx] the agents call, and the two float
    formats of the deferral reason ([{x:.2f}] and [{x}]).  They are opaque
    to the pipeline. *)
Class PactHx : Type := {
  express : EpistemicState.t -> ExpressionContext.t -> string -> option string
            -> Response.t;
  check_for_crisis : string -> bool * option string;
  generate_crisis_response : string;
  check_requires_human : string -> bool;
  format_2f : Q -> string;
  format_float : Q -> string
}.

(** ** [agents/base_agent.py] *)

Module AgentCapability.
Record t : Type := mk {
  domain : string;
  topics : list string;
  proficiency_level : ConfidenceLevel;
  confidence_range : Q * Q
}.

(** [any(topic.lower() in t.lower() for t in self.topics)] *)
Definition can_handle (self : t) (topic : string) : bool :=
  existsb (fun t => Str.contains (Str.lower topic) (Str.lower t)) (topics self).
End AgentCapability.

(** One entry of [interaction_history]. *)
Module Interaction.
Record t : Type := mk {
  timestamp : Z;
  query : string;
  domain : string;
  confidence : Q;
  deferred : bool;
  response_message : option string;
  should_escalate : bool
}.
End Interaction.

(** One entry of [learning_log]. *)
Module LearningEvent.
Record t : Type := mk {
  timestamp : Z;
  query : string;
  predicted_confidence : Q;
  actual_outcome : bool;
  feedback : option string
}.
End LearningEvent.

(** The class of an agent object, with the attributes its [__init__] adds:
    [knowledge_base], [session_history] and [knowledge] are dicts read in
    insertion order. *)
Inductive AgentClass : Type :=
  | BaseAgent
  | CustomerCareAgent (knowledge_base : list (string * string))
  | MentalHealthSupportAgent (session_history : list (string * string))
  | VoiceAIAssistant (knowledge : list (string * list (string * string))).

Module Agent.
Record t : Type := mk {
  cls : AgentClass;
  id : string;
  name : string;
  domain : Domain;
  capabilities : list AgentCapability.t;
  boundaries : list KnowledgeBoundary.t;
  delegation_map : DelegationMap.t;
  interaction_history : list Interaction.t;
  learning_log : list LearningEvent.t
}.

Definition set_boundaries (bs : list KnowledgeBoundary.t) (a : t) : t :=
  mk (cls a) (id a) (name a) (domain a) (capabilities a) bs
     (delegation_map a) (interaction_history a) (learning_log a).

Definition set_delegation_map (m : DelegationMap.t) (a : t) : t :=
  mk (cls a) (id a) (name a) (domain a) (capabilities a) (boundaries a)
     m (interaction_history a) (learning_log a).

Definition set_interaction_history (h : list Interaction.t) (a : t) : t :=
  mk (cls a) (id a) (name a) (domain a) (capabilities a) (boundaries a)
     (delegation_map a) h (learning_log a).

Definition set_learning_log (l : list LearningEvent.t) (a : t) : t :=
  mk (cls a) (id a) (name a) (domain a) (capabilities a) (boundaries a)
     (delegation_map a) (interaction_history a) l.

Definition set_cls (c : AgentClass) (a : t) : t :=
  mk c (id a) (name a) (domain a) (capabilities a) (boundaries a)
     (delegation_map a) (interaction_history a) (learning_log a).
End Agent.

(** The exceptions the agents can raise. *)
Inductive exn : Type :=
  | NotImplementedError (msg : string)
  | IndexError
  | KeyError (key : string).

(** A method of an agent: it runs on the agent object [self], returns a
    value or raises, and leaves the agent as it mutated it so far. *)
Definition M (A : Type) : Type := Agent.t -> (exn + A) * Agent.t.

Definition ret {A} (x : A) : M A := fun self => (inr x, self).

Definition bind {A B} (m : M A) (k : A -> M B) : M B :=
  fun self =>
    match m self with
    | (inr x, self') => k x self'
    | (inl e, self') => (inl e, self')
    end.

Definition raise {A} (e : exn) : M A := fun self => (inl e, self).

(** Read an attribute of [self]. *)
Definition gets {A} (f : Agent.t -> A) : M A := fun self => (inr (f self), self).

(** Mutate [self]. *)
Definition modify (f : Agent.t -> Agent.t) : M unit := fun self => (inr tt, f self).

(** The notations [x ← m; k] and [m;; k] are those of this monad. *)
#[global] Instance M_ret : MRet M := @ret.
#[global] Instance M_bind : MBind M := fun A B k m => bind m k.

(** [xs[i]] *)
Definition index {A} (xs : list A) (i : nat) : M A :=
  match xs !! i with
  | Some x => ret x
  | None => raise IndexError
  end.

(** [d[k]] on a dict in insertion order. *)
Fixpoint assoc {A} (k : string) (d : list (string * A)) : option A :=
  match d with
  | [] => None
  | (k', v) :: d' => if String.eqb k' k then Some v else assoc k d'
  end.

Definition getitem {A} (d : list (string * A)) (k : string) : M A :=
  match assoc k d with
  | Some v => ret v
  | None => raise (KeyError k)
  end.

(** [d.get(k, default)] *)
Definition dict_get {A} (d : list (string * A)) (k : string) (default : A) : A :=
  match assoc k d with
  | Some v => v
  | None => default
  end.

Section Agents.
Context `{PactAx} `{PactHx}.

Import AgentCapability.

(** *** [BaseAgent.__init__] and [_build_boundaries] *)

(** The boundary built for one capability. *)
Definition boundary_of (capability : AgentCapability.t) : KnowledgeBoundary.t :=
  KnowledgeBoundary.mk
    (domain capability)
    (proficiency_level capability)
    (list_to_set (topics capability))
    ∅.

(** The loop of [_build_boundaries]: [boundaries.append(boundary)] for each
    capability in turn. *)
Fixpoint _build_boundaries_loop
    (capabilities : list AgentCapability.t)
    (boundaries : list KnowledgeBoundary.t) : list KnowledgeBoundary.t :=
  match capabilities with
  | [] => boundaries
  | capability :: rest =>
      _build_boundaries_loop rest (boundaries ++ [boundary_of capability])
  end.

Definition _build_boundaries (capabilities : list AgentCapability.t)
  : list KnowledgeBoundary.t :=
  _build_boundaries_loop capabilities [].

(** [BaseAgent.__init__]: the constructor checks nothing and raises
    nothing. *)
Definition BaseAgent_init (agent_id name : string) (domain : Domain)
    (capabilities : list AgentCapability.t) : exn + Agent.t :=
  inr (Agent.mk BaseAgent agent_id name domain capabilities
         (_build_boundaries capabilities)
         DelegationMap.empty
         []
         []).

(** *** [BaseAgent.assess_capability] *)

(** The loop that finds the relevant capability: the first one, in
    declaration order, whose domain is the query's or that can handle the
    content. *)
Fixpoint relevant_capability
    (capabilities : list AgentCapability.t) (query : Query.t)
  : option AgentCapability.t :=
  match capabilities with
  | [] => None
  | cap :: rest =>
      if String.eqb (domain cap) (Query.domain query)
         || can_handle cap (Query.content query)
      then Some cap
      else relevant_capability rest query
  end.

Definition _suggest_delegate (query : Query.t) : M (option string) :=
  delegation_map ← gets Agent.delegation_map;
  mret (DelegationMap.get_delegate (Query.domain query) delegation_map).

Definition complexity_indicators : list string :=
  ["complex"; "detailed"; "specific"; "technical"; "refund"; "cancel"].

(** [CustomerCareAgent._assess_confidence] *)
Definition CustomerCareAgent_assess_confidence
    (knowledge_base : list (string * string))
    (query : Query.t) (capability : AgentCapability.t) : ConfidenceLevel :=
  let query_lower := Str.lower (Query.content query) in
  if existsb (fun key => Str.contains key query_lower) (map fst knowledge_base)
  then CERTAIN
  else if can_handle capability (Query.content query) then
    if Str.any_in complexity_indicators query_lower then LOW else MODERATE
  else UNKNOWN.

(** [BaseAgent._assess_confidence]: the capability's proficiency. *)
Definition BaseAgent_assess_confidence
    (query : Query.t) (capability : AgentCapability.t) : ConfidenceLevel :=
  proficiency_level capability.

(** [self._assess_confidence(query, capability)]: the override of the
    object's class, the base implementation without one. *)
Definition _assess_confidence
    (query : Query.t) (capability : AgentCapability.t) : M ConfidenceLevel :=
  cls ← gets Agent.cls;
  match cls with
  | CustomerCareAgent knowledge_base =>
      mret (CustomerCareAgent_assess_confidence knowledge_base query capability)
  | _ => mret (BaseAgent_assess_confidence query capability)
  end.

Definition outside_expertise_reason (query : Query.t) : string :=
  "Topic '" +:+ Query.domain query +:+ "' is outside my expertise areas".

Definition below_threshold_reason
    (confidence : ConfidenceLevel) (query : Query.t) : string :=
  "My confidence (" +:+ format_2f (level_value confidence)
  +:+ ") is below required threshold ("
  +:+ format_float (Query.required_confidence query) +:+ ")".

Definition assess_capability (query : Query.t) : M EpistemicState.t :=
  capabilities ← gets Agent.capabilities;
  match relevant_capability capabilities query with
  | None =>
      suggested_delegate ← _suggest_delegate query;
      mret (to_epistemic_state
              (UnknownResponse.mk (outside_expertise_reason query)
                                  suggested_delegate
                                  (Some false)))
  | Some capability =>
      confidence ← _assess_confidence query capability;
      let should_defer :=
        Qltb (level_value confidence) (Query.required_confidence query) in
      if should_defer then
        boundaries ← gets Agent.boundaries;
        primary ← index boundaries 0;
        delegation_map ← gets Agent.delegation_map;
        mret (EpistemicState.mk
                None
                confidence
                (Some (below_threshold_reason confidence query))
                (Some primary)
                (Some delegation_map)
                None)
      else
        boundaries ← gets Agent.boundaries;
        primary ← index boundaries 0;
        mret (EpistemicState.mk
                (Some "can_handle")
                confidence
                None
                (Some primary)
                None
                None)
  end.

(** *** The answer generators of the three subclasses *)

(** [for key, value in d.items(): if key in text: return ...]: the first
    entry, in insertion order, whose key occurs in [text]. *)
Fixpoint first_key_in (d : list (string * string)) (text : string)
  : option (string * string) :=
  match d with
  | [] => None
  | (key, value) :: rest =>
      if Str.contains key text then Some (key, value) else first_key_in rest text
  end.

(** [for capability in self.capabilities: if capability.can_handle(content)] *)
Fixpoint first_can_handle
    (capabilities : list AgentCapability.t) (content : string)
  : option AgentCapability.t :=
  match capabilities with
  | [] => None
  | capability :: rest =>
      if can_handle capability content then Some capability
      else first_can_handle rest content
  end.

(** [CustomerCareAgent._generate_answer] *)
Definition CustomerCareAgent_generate_answer
    (knowledge_base : list (string * string))
    (query : Query.t) (context : ExpressionContext.t) : M EpistemicState.t :=
  let query_lower := Str.lower (Query.content query) in
  match first_key_in knowledge_base query_lower with
  | Some (key, value) =>
      boundaries ← gets Agent.boundaries;
      primary ← index boundaries 0;
      mret (EpistemicState.mk (Some value) CERTAIN None
              (Some primary) None (Some "knowledge_base"))
  | None =>
      capabilities ← gets Agent.capabilities;
      match first_can_handle capabilities (Query.content query) with
      | Some capability =>
          if Str.contains "billing" query_lower && Str.contains "refund" query_lower
          then
            delegation_map ← gets Agent.delegation_map;
            mret (EpistemicState.mk
                    (Some "I can see you're asking about refunds, but I need to connect you with our billing specialist who can process that for you.")
                    LOW
                    (Some "Refund processing requires specialist access")
                    None (Some delegation_map) None)
          else if Str.contains "technical" query_lower
                  || Str.contains "error" query_lower
          then
            delegation_map ← gets Agent.delegation_map;
            mret (EpistemicState.mk
                    (Some "This appears to be a technical issue")
                    LOW
                    (Some "Technical troubleshooting needs engineering team")
                    None (Some delegation_map) None)
          else
            mret (EpistemicState.mk
                    (Some ("I can help with " +:+ domain capability
                           +:+ " questions. Could you be more specific about what you need?"))
                    MODERATE
                    (Some "Need more details to provide specific answer")
                    None None None)
      | None =>
          mret (to_epistemic_state
                  (UnknownResponse.mk
                     "This topic is outside my area of expertise"
                     (Some "specialist_team")
                     None))
      end
  end.

Definition _get_coping_technique_guidance (query : string) : string :=
  if Str.contains "breathing" query then
    "Let's try box breathing: Breathe in for 4 counts, hold for 4, out for 4, hold for 4. Repeat 4 times. This activates your parasympathetic nervous system."
  else if Str.contains "grounding" query then
    "Try the 5-4-3-2-1 technique: Name 5 things you see, 4 you can touch, 3 you hear, 2 you smell, 1 you taste. This brings you to the present moment."
  else if Str.contains "mindfulness" query then
    "A simple mindfulness practice: Focus on your breath for 2 minutes. When your mind wanders, gently bring attention back. No judgment, just noticing."
  else
    "There are several evidence-based techniques we can explore. What specifically would help you right now?".

Definition _recall_session_context
    (session_history : list (string * string)) (query : string) : string :=
  if Str.contains "stress" query then
    dict_get session_history "stress_techniques"
      "We can explore stress management techniques together"
  else if Str.contains "goal" query then
    dict_get session_history "goals" "Let's review your current goals"
  else if Str.contains "progress" query then
    dict_get session_history "progress" "Let's reflect on your journey so far"
  else
    "From our previous conversations, we've been working on building coping strategies together".

Definition _provide_general_wellness_support (query : string) : string :=
  if Str.contains "sleep" query then
    "Sleep routine is important. Some general guidance: consistent bedtime, limit screens before bed, create calming environment. Your therapist can help tailor this to your specific situation."
  else if Str.contains "stress" query then
    "Stress management often involves multiple approaches. We can work on breathing techniques and grounding exercises. Your therapist can help identify your specific stressors."
  else
    "Wellness involves physical, emotional, and mental aspects. What area feels most important to focus on right now?".

(** [MentalHealthSupportAgent._generate_answer]: the crisis check comes
    first in this method. *)
Definition MentalHealthSupportAgent_generate_answer
    (session_history : list (string * string))
    (query : Query.t) (context : ExpressionContext.t) : M EpistemicState.t :=
  let query_lower := Str.lower (Query.content query) in
  let '(is_crisis, crisis_type) := check_for_crisis (Query.content query) in
  if is_crisis then
    let crisis_response := generate_crisis_response in
    mret (EpistemicState.mk (Some crisis_response) CERTAIN None
            None None (Some "crisis_protocol"))
  else
    let requires_human := check_requires_human (Query.content query) in
    if requires_human then
      delegation_map ← gets Agent.delegation_map;
      mret (EpistemicState.mk
              (Some "This needs discussion with your therapist")
              UNKNOWN
              (Some "Topic requires licensed clinical expertise")
              None (Some delegation_map) None)
    else if Str.any_in ["breathing"; "grounding"; "mindfulness"] query_lower then
      let answer := _get_coping_technique_guidance query_lower in
      mret (EpistemicState.mk (Some answer) CONFIDENT None
              None None (Some "evidence_based_techniques"))
    else if Str.any_in ["previous"; "last time"; "we discussed"; "progress"]
                       query_lower then
      let answer := _recall_session_context session_history query_lower in
      mret (EpistemicState.mk (Some answer) MODERATE None
              None None (Some "session_history"))
    else if Str.any_in ["stress"; "sleep"; "routine"] query_lower then
      let answer := _provide_general_wellness_support query_lower in
      mret (EpistemicState.mk (Some answer) MODERATE
              (Some "General guidance - your therapist can personalize this for you")
              None None None)
    else
      mret (to_epistemic_state
              (UnknownResponse.mk
                 "This is outside my scope as a support tool"
                 (Some "licensed_therapist")
                 None)).

Definition current_indicators : list string :=
  ["today"; "latest"; "recent"; "news"; "now"; "current"].

(** [VoiceAIAssistant._generate_answer] *)
Definition VoiceAIAssistant_generate_answer
    (knowledge : list (string * list (string * string)))
    (query : Query.t) (context : ExpressionContext.t) : M EpistemicState.t :=
  let query_lower := Str.lower (Query.content query) in
  if Str.any_in current_indicators query_lower then
    delegation_map ← gets Agent.delegation_map;
    mret (EpistemicState.mk
            (Some "I don't have access to real-time information")
            UNKNOWN
            (Some "No real-time data access")
            None (Some delegation_map) None)
  else
    capital_hit ←
      (if Str.contains "capital" query_lower then
         capitals ← getitem knowledge "capital";
         mret (first_key_in capitals query_lower)
       else mret None);
    match capital_hit with
    | Some (country, capital) =>
        mret (EpistemicState.mk
                (Some ("The capital of " +:+ Str.title country +:+ " is " +:+ capital))
                CERTAIN None None None (Some "knowledge_base"))
    | None =>
        definition_hit ←
          (if Str.contains "what is" query_lower || Str.contains "define" query_lower
           then
             definitions ← getitem knowledge "definition";
             mret (first_key_in definitions query_lower)
           else mret None);
        match definition_hit with
        | Some (term, definition) =>
            mret (EpistemicState.mk
                    (Some (Str.title term +:+ " means: " +:+ definition))
                    CONFIDENT None None None (Some "knowledge_base"))
        | None =>
            if Str.contains "weather" query_lower then
              mret (EpistemicState.mk
                      (Some "I can check the weather")
                      MODERATE
                      (Some "Would need to access weather API")
                      None None (Some "capability_check"))
            else
              mret (to_epistemic_state
                      (UnknownResponse.mk
                         "I don't have that information"
                         (if negb (Str.contains "search" query_lower)
                          then Some "search" else None)
                         None))
        end
    end.

(** [self._generate_answer(query, context)]: the override of the object's
    class; [BaseAgent] itself raises. *)
Definition _generate_answer
    (query : Query.t) (context : ExpressionContext.t) : M EpistemicState.t :=
  cls ← gets Agent.cls;
  match cls with
  | BaseAgent =>
      raise (NotImplementedError "Subclasses must implement _generate_answer")
  | CustomerCareAgent knowledge_base =>
      CustomerCareAgent_generate_answer knowledge_base query context
  | MentalHealthSupportAgent session_history =>
      MentalHealthSupportAgent_generate_answer session_history query context
  | VoiceAIAssistant knowledge =>
      VoiceAIAssistant_generate_answer knowledge query context
  end.

(** *** [BaseAgent.handle] *)

(** [_log_interaction]; [now] is the reading of [datetime.now()]. *)
Definition _log_interaction (now : Z)
    (query : Query.t) (state : EpistemicState.t) (response : Response.t)
    (deferred : bool) : M unit :=
  modify (fun self =>
    Agent.set_interaction_history
      (Agent.interaction_history self ++
         [Interaction.mk now
            (Query.content query)
            (Query.domain query)
            (level_value (EpistemicState.confidence state))
            deferred
            (Response.message response)
            (default false (Response.should_escalate response))])
      self).

Definition handle (now : Z) (query : Query.t) (context : ExpressionContext.t)
  : M Response.t :=
  (* Step 1: Assess capability *)
  capability_assessment ← assess_capability query;
  (* Step 2: If should defer, do so immediately *)
  if should_defer capability_assessment
       (Query.domain query) (Query.required_confidence query)
  then
    let delegate_to :=
      EpistemicState.get_delegate (Query.domain query) capability_assessment in
    let response :=
      express capability_assessment context (Query.content query) delegate_to in
    _log_interaction now query capability_assessment response true;;
    mret response
  else
    (* Step 3: Attempt to answer *)
    answer_state ← _generate_answer query context;
    (* Step 4: Express appropriately *)
    let response := express answer_state context (Query.content query) None in
    (* Step 5: Log interaction *)
    _log_interaction now query answer_state response false;;
    mret response.

(** *** [BaseAgent.learn_from_outcome] *)

(** [for boundary in self.boundaries: if boundary.domain == domain:
    boundary.update_boundary(...)] *)
Fixpoint update_matching_boundaries (domain : string)
    (learned_limit learned_capability : option string)
    (boundaries : list KnowledgeBoundary.t) : list KnowledgeBoundary.t :=
  match boundaries with
  | [] => []
  | boundary :: rest =>
      (if String.eqb (KnowledgeBoundary.domain boundary) domain
       then KnowledgeBoundary.update_boundary learned_limit learned_capability boundary
       else boundary)
      :: update_matching_boundaries domain learned_limit learned_capability rest
  end.

Definition learn_from_outcome (now : Z)
    (query : Query.t) (predicted_state : EpistemicState.t)
    (actual_outcome : bool) (feedback : option string) : M unit :=
  let predicted := level_value (EpistemicState.confidence predicted_state) in
  (* Log learning event *)
  modify (fun self =>
    Agent.set_learning_log
      (Agent.learning_log self ++
         [LearningEvent.mk now (Query.content query) predicted
            actual_outcome feedback])
      self);;
  (* Update boundaries if learned new limit *)
  (if negb actual_outcome && Qltb (6 # 10) predicted then
     modify (fun self =>
       Agent.set_boundaries
         (update_matching_boundaries (Query.domain query)
            (Some (Query.content query)) None (Agent.boundaries self))
         self)
   else mret tt);;
  (* If learned new capability *)
  (if actual_outcome && Qltb predicted (1 # 2) then
     modify (fun self =>
       Agent.set_boundaries
         (update_matching_boundaries (Query.domain query)
            None (Some (Query.content query)) (Agent.boundaries self))
         self)
   else mret tt).

(** [self.delegation_map.add_delegation(domain, delegate_id, reason)] *)
Definition add_delegation (domain delegate_id reason : string)
    (self : Agent.t) : Agent.t :=
  Agent.set_delegation_map
    (DelegationMap.add_delegation domain delegate_id reason
       (Agent.delegation_map self))
    self.

(** *** The constructors of the subclasses

    Each calls [BaseAgent.__init__] on its capabilities, registers its
    delegations and sets its own attributes. *)

Definition CustomerCareAgent_capabilities : list AgentCapability.t :=
  [ AgentCapability.mk "general_inquiries"
      ["hours"; "location"; "contact"; "general questions"]
      CONFIDENT (8 # 10, 95 # 100);
    AgentCapability.mk "account_basics"
      ["login"; "password reset"; "account info"; "profile"]
      CONFIDENT (7 # 10, 9 # 10);
    AgentCapability.mk "billing_basic"
      ["check balance"; "payment methods"; "billing cycle"]
      MODERATE (5 # 10, 7 # 10) ].

Definition CustomerCareAgent_knowledge_base : list (string * string) :=
  [ ("hours", "We're open Monday-Friday 9am-6pm EST");
    ("location", "We're headquartered in San Francisco, CA");
    ("contact", "You can reach us at support@example.com or 1-800-EXAMPLE");
    ("login", "To reset your password, click 'Forgot Password' on the login page");
    ("password reset", "Password resets are sent to your registered email within 5 minutes");
    ("account info", "You can update your account info in Settings > Profile");
    ("balance", "Your current balance is shown in the Billing section of your account") ].

Definition CustomerCareAgent_init (agent_id : string) : exn + Agent.t :=
  match BaseAgent_init agent_id "Care Agent" CUSTOMER_CARE
          CustomerCareAgent_capabilities with
  | inl e => inl e
  | inr self =>
      let self := add_delegation "billing_complex" "billing_specialist"
                    "Complex billing issues require specialist" self in
      let self := add_delegation "technical" "technical_support"
                    "Technical issues need engineering expertise" self in
      let self := add_delegation "refunds" "billing_specialist"
                    "Refund processing requires specialist access" self in
      inr (Agent.set_cls (CustomerCareAgent CustomerCareAgent_knowledge_base) self)
  end.

Definition MentalHealthSupportAgent_capabilities : list AgentCapability.t :=
  [ AgentCapability.mk "general_wellness"
      ["stress"; "sleep"; "exercise"; "routine"; "self-care"]
      MODERATE (5 # 10, 7 # 10);
    AgentCapability.mk "coping_techniques"
      ["breathing"; "grounding"; "journaling"; "mindfulness"]
      CONFIDENT (7 # 10, 85 # 100);
    AgentCapability.mk "session_continuity"
      ["previous session"; "progress"; "goals"]
      MODERATE (6 # 10, 8 # 10) ].

Definition MentalHealthSupportAgent_session_history : list (string * string) :=
  [ ("stress_techniques", "We've practiced box breathing and progressive muscle relaxation");
    ("goals", "Working on establishing consistent sleep routine");
    ("progress", "You mentioned feeling more grounded after our breathing exercises") ].

Definition MentalHealthSupportAgent_init (agent_id : string) : exn + Agent.t :=
  match BaseAgent_init agent_id "Mental Health Support" MENTAL_HEALTH
          MentalHealthSupportAgent_capabilities with
  | inl e => inl e
  | inr self =>
      let self := add_delegation "diagnosis" "licensed_therapist"
                    "Diagnosis requires licensed clinical expertise" self in
      let self := add_delegation "medication" "psychiatrist"
                    "Medication questions need psychiatric expertise" self in
      let self := add_delegation "crisis" "crisis_hotline"
                    "Crisis situations need immediate professional support" self in
      let self := add_delegation "severe_symptoms" "licensed_therapist"
                    "Severe symptoms require clinical assessment" self in
      inr (Agent.set_cls
             (MentalHealthSupportAgent MentalHealthSupportAgent_session_history)
             self)
  end.

Definition VoiceAIAssistant_capabilities : list AgentCapability.t :=
  [ AgentCapability.mk "general_knowledge"
      ["facts"; "definitions"; "explanations"; "history"]
      CONFIDENT (7 # 10, 9 # 10);
    AgentCapability.mk "current_events"
      ["news"; "today"; "recent"; "latest"]
      LOW (2 # 10, 5 # 10);
    AgentCapability.mk "personal_assistant"
      ["reminder"; "schedule"; "weather"; "time"]
      CONFIDENT (8 # 10, 95 # 100) ].

Definition VoiceAIAssistant_knowledge : list (string * list (string * string)) :=
  [ ("capital",
     [ ("france", "Paris"); ("japan", "Tokyo"); ("usa", "Washington DC") ]);
    ("definition",
     [ ("humility", "the quality of being humble; freedom from pride and arrogance");
       ("epistemic", "relating to knowledge or to the degree of its validation") ]) ].

Definition VoiceAIAssistant_init (agent_id : string) : exn + Agent.t :=
  match BaseAgent_init agent_id "Voice Assistant" VOICE_AI
          VoiceAIAssistant_capabilities with
  | inl e => inl e
  | inr self =>
      let self := add_delegation "current_events" "web_search"
                    "Need real-time information" self in
      let self := add_delegation "specialized_knowledge" "expert_system"
                    "Specialized domain needs expert" self in
      inr (Agent.set_cls (VoiceAIAssistant VoiceAIAssistant_knowledge) self)
  end.

End Agents.

(** ** Vocabulary of the properties *)

Section Vocabulary.
Context `{PactAx} `{PactHx}.

Import AgentCapability.

(** The test of the capability scan. *)
Definition matches_query (query : Query.t) (cap : AgentCapability.t) : bool :=
  String.eqb (domain cap) (Query.domain query)
  || can_handle cap (Query.content query).

(** The confidence [self._assess_confidence] returns on an agent of class
    [cls]. *)
Definition assessed_confidence (cls : AgentClass)
    (query : Query.t) (capability : AgentCapability.t) : ConfidenceLevel :=
  match cls with
  | CustomerCareAgent knowledge_base =>
      CustomerCareAgent_assess_confidence knowledge_base query capability
  | _ => BaseAgent_assess_confidence query capability
  end.

(** The three states [assess_capability] builds. *)
Definition unknown_state (self : Agent.t) (query : Query.t) : EpistemicState.t :=
  to_epistemic_state
    (UnknownResponse.mk (outside_expertise_reason query)
       (DelegationMap.get_delegate (Query.domain query) (Agent.delegation_map self))
       (Some false)).

Definition deferral_state (self : Agent.t) (query : Query.t)
    (confidence : ConfidenceLevel) (primary : KnowledgeBoundary.t)
  : EpistemicState.t :=
  EpistemicState.mk None confidence
    (Some (below_threshold_reason confidence query))
    (Some primary) (Some (Agent.delegation_map self)) None.

Definition can_handle_state
    (confidence : ConfidenceLevel) (primary : KnowledgeBoundary.t)
  : EpistemicState.t :=
  EpistemicState.mk (Some "can_handle") confidence None (Some primary) None None.

(** The entry [_log_interaction] appends. *)
Definition logged (now : Z) (query : Query.t) (state : EpistemicState.t)
    (response : Response.t) (deferred : bool) : Interaction.t :=
  Interaction.mk now (Query.content query) (Query.domain query)
    (level_value (EpistemicState.confidence state)) deferred
    (Response.message response)
    (default false (Response.should_escalate response)).

Definition log_interaction (e : Interaction.t) (self : Agent.t) : Agent.t :=
  Agent.set_interaction_history (Agent.interaction_history self ++ [e]) self.

(** The two arms of [handle] after the assessment. *)
Definition defer_arm (now : Z) (query : Query.t) (context : ExpressionContext.t)
    (capability_assessment : EpistemicState.t) : M Response.t :=
  let delegate_to :=
    EpistemicState.get_delegate (Query.domain query) capability_assessment in
  let response :=
    express capability_assessment context (Query.content query) delegate_to in
  _log_interaction now query capability_assessment response true;;
  mret response.

Definition answer_arm (now : Z) (query : Query.t) (context : ExpressionContext.t)
  : M Response.t :=
  answer_state ← _generate_answer query context;
  let response := express answer_state context (Query.content query) None in
  _log_interaction now query answer_state response false;;
  mret response.

(** The state [handle] renders and logs, with the [deferred] flag and the
    delegate it passes to the renderer. *)
Definition terminal_state (query : Query.t) (context : ExpressionContext.t)
  : M (EpistemicState.t * bool * option string) :=
  capability_assessment ← assess_capability query;
  if should_defer capability_assessment
       (Query.domain query) (Query.required_confidence query)
  then
    mret (capability_assessment, true,
          EpistemicState.get_delegate (Query.domain query) capability_assessment)
  else
    answer_state ← _generate_answer query context;
    mret (answer_state, false, None).

(** [handle] ran to its end on the deferring arm: it returned a response
    and appended an interaction flagged [deferred]. *)
Definition defers (now : Z) (query : Query.t) (context : ExpressionContext.t)
    (self : Agent.t) : Prop :=
  exists response e,
    handle now query context self = (inr response, log_interaction e self)
    /\ Interaction.deferred e = true.

(** Modelled from the spec: the pre-assessment of the Coordinator of
    [pact_ax.coordination.humility_aware], which asks each agent of the
    pool, in order, for its capability assessment. *)
Fixpoint pre_assess (query : Query.t) (pool : list Agent.t)
  : list (exn + EpistemicState.t) * list Agent.t :=
  match pool with
  | [] => ([], [])
  | agent :: rest =>
      let '(assessment, agent') := assess_capability query agent in
      let '(assessments, rest') := pre_assess query rest in
      (assessment :: assessments, agent' :: rest')
  end.

(** The four-step ladder in the words of the specification, over the
    known-fact keys and the complexity indicators it is given. *)
Definition confidence_ladder (known_fact_keys complexity : list string)
    (content : string) (capability : AgentCapability.t) : ConfidenceLevel :=
  if Str.any_in known_fact_keys content then CERTAIN
  else if can_handle capability content && Str.any_in complexity content then LOW
  else if can_handle capability content then MODERATE
  else UNKNOWN.

(** The invariant of an epistemic state.  A state does not know when its
    value is absent or its confidence is UNKNOWN; it is a firm answer when
    it has a value, a confidence above UNKNOWN and no uncertainty reason. *)
Definition does_not_know (st : EpistemicState.t) : Prop :=
  EpistemicState.value st = None \/ EpistemicState.confidence st = UNKNOWN.

Definition firm_answer (st : EpistemicState.t) : Prop :=
  is_Some (EpistemicState.value st)
  /\ EpistemicState.confidence st <> UNKNOWN
  /\ EpistemicState.uncertainty_reason st = None.

Definition state_invariant (st : EpistemicState.t) : Prop :=
  (does_not_know st -> is_Some (EpistemicState.uncertainty_reason st))
  /\ (firm_answer st -> is_Some (EpistemicState.source st)).

(** The state the crisis check of [_generate_answer] returns. *)
Definition crisis_state : EpistemicState.t :=
  EpistemicState.mk (Some generate_crisis_response) CERTAIN None
    None None (Some "crisis_protocol").

(** What a constructor leaves: the agent holds the capabilities it was
    given, one boundary for each of them, in the same order, with the
    domain and the proficiency of the capability, its topics as known
    capabilities and no known limit, and two empty logs. *)
Definition constructed_on (capabilities : list AgentCapability.t)
    (self : Agent.t) : Prop :=
  Agent.capabilities self = capabilities
  /\ Agent.boundaries self = map boundary_of capabilities
  /\ (forall i capability,
        capabilities !! i = Some capability ->
        exists boundary,
          Agent.boundaries self !! i = Some boundary
          /\ KnowledgeBoundary.domain boundary = AgentCapability.domain capability
          /\ KnowledgeBoundary.proficiency boundary
             = AgentCapability.proficiency_level capability
          /\ KnowledgeBoundary.known_capabilities boundary
             = list_to_set (AgentCapability.topics capability)
          /\ KnowledgeBoundary.known_limits boundary = ∅)
  /\ Agent.interaction_history self = []
  /\ Agent.learning_log self = [].

(** The invariant of the constructor: one boundary for each capability. *)
Definition boundaries_cover (self : Agent.t) : Prop :=
  length (Agent.boundaries self) = length (Agent.capabilities self).

(** A boundary with one more known limit, or one more known capability. *)
Definition add_limit (text : string) (b : KnowledgeBoundary.t)
  : KnowledgeBoundary.t :=
  KnowledgeBoundary.mk (KnowledgeBoundary.domain b)
    (KnowledgeBoundary.proficiency b)
    (KnowledgeBoundary.known_capabilities b)
    ({[ text ]} ∪ KnowledgeBoundary.known_limits b).

Definition add_capability (text : string) (b : KnowledgeBoundary.t)
  : KnowledgeBoundary.t :=
  KnowledgeBoundary.mk (KnowledgeBoundary.domain b)
    (KnowledgeBoundary.proficiency b)
    ({[ text ]} ∪ KnowledgeBoundary.known_capabilities b)
    (KnowledgeBoundary.known_limits b).

(** The boundaries of the domain changed by [f], the others kept. *)
Definition on_domain (domain : string)
    (f : KnowledgeBoundary.t -> KnowledgeBoundary.t)
    (boundaries : list KnowledgeBoundary.t) : list KnowledgeBoundary.t :=
  map (fun b => if decide (KnowledgeBoundary.domain b = domain) then f b else b)
      boundaries.

(** The agents a program can hold: built by a constructor, then used
    through the methods of the class. *)
Inductive reachable : Agent.t -> Prop :=
  | reach_base agent_id name domain capabilities self :
      BaseAgent_init agent_id name domain capabilities = inr self ->
      reachable self
  | reach_customer_care agent_id self :
      CustomerCareAgent_init agent_id = inr self -> reachable self
  | reach_mental_health agent_id self :
      MentalHealthSupportAgent_init agent_id = inr self -> reachable self
  | reach_voice agent_id self :
      VoiceAIAssistant_init agent_id = inr self -> reachable self
  | reach_add_delegation domain delegate_id reason self :
      reachable self -> reachable (add_delegation domain delegate_id reason self)
  | reach_assess query self :
      reachable self -> reachable (snd (assess_capability query self))
  | reach_handle now query context self :
      reachable self -> reachable (snd (handle now query context self))
  | reach_learn now query predicted_state actual_outcome feedback self :
      reachable self ->
      reachable (snd (learn_from_outcome now query predicted_state
                        actual_outcome feedback self)).

End Vocabulary.

(** ** A sample of the collaborators

    One score table within the constraints of the specification and one
    renderer and crisis detector, to run the agents on the queries of the
    demos. *)

Definition sample_level_value (l : ConfidenceLevel) : Q :=
  match l with
  | UNKNOWN => 0
  | LOW => 3 # 10
  | MODERATE => 6 # 10
  | CONFIDENT => 8 # 10
  | CERTAIN => 1
  end.

Definition sample_to_epistemic_state (u : UnknownResponse.t) : EpistemicState.t :=
  EpistemicState.mk None UNKNOWN (Some (UnknownResponse.reason u)) None None None.

Definition sample_express (level_value : ConfidenceLevel -> Q)
    (st : EpistemicState.t) (context : ExpressionContext.t)
    (raw_query : string) (delegate_to : option string) : Response.t :=
  Response.mk
    (Some (default (default "" (EpistemicState.uncertainty_reason st))
                   (EpistemicState.value st)))
    (Some (level_value (EpistemicState.confidence st)))
    (Some (bool_decide (is_Some (EpistemicState.uncertainty_reason st))))
    delegate_to
    None.

Definition sample_check_for_crisis (content : string) : bool * option string :=
  if Str.contains "hurting myself" (Str.lower content)
  then (true, Some "self_harm")
  else (false, None).

Definition sample_check_requires_human (content : string) : bool :=
  Str.any_in ["depression"; "diagnos"; "medication"] (Str.lower content).

Definition sample_ax : PactAx := {|
  level_value := sample_level_value;
  level_value_range :=
    ltac:(intros l; destruct l; split; vm_compute; congruence);
  level_value_order := ltac:(repeat split);
  to_epistemic_state := sample_to_epistemic_state;
  to_epistemic_state_confidence := fun _ => eq_refl;
  to_epistemic_state_reason := fun _ => eq_refl
|}.

Definition sample_hx : PactHx := {|
  express := sample_express sample_level_value;
  check_for_crisis := sample_check_for_crisis;
  generate_crisis_response :=
    "Please reach a crisis line or emergency services now.";
  check_requires_human := sample_check_requires_human;
  format_2f := fun _ => "0.00";
  format_float := fun _ => "0.0"
|}.

(** ** Queries of the demos *)

Definition password_query : Query.t :=
  Query.mk "How do I reset my password?" "account_basics" (6 # 10).

Definition care_context : ExpressionContext.t :=
  ExpressionContext.mk CUSTOMER_CARE PROFESSIONAL "normal".

Definition coping_techniques : AgentCapability.t :=
  AgentCapability.mk "coping_techniques"
    ["breathing"; "grounding"; "journaling"; "mindfulness"]
    CONFIDENT (7 # 10, 85 # 100).

Definition breathing_query : Query.t :=
  Query.mk "Can you teach me the breathing technique we discussed?"
    "coping_techniques" (7 # 10).

Definition hours_capability : AgentCapability.t :=
  AgentCapability.mk "general_inquiries" ["hours"] CONFIDENT (8 # 10, 95 # 100).

Definition hours_query : Query.t :=
  Query.mk "What are your hours?" "general_inquiries" (6 # 10).

Definition crisis_content : string := "I'm thinking about hurting myself".

Definition crisis_query : Query.t := Query.mk crisis_content "crisis" (9 # 10).

Definition wellness_crisis_query : Query.t :=
  Query.mk crisis_content "general_wellness" (9 # 10).

Definition clinical_context : ExpressionContext.t :=
  ExpressionContext.mk MENTAL_HEALTH CLINICAL "normal".

(** ** [AgentCapability.can_handle] on Unicode text

    A Python [str] is a sequence of code points, and [str.lower] is the
    lower-casing of Unicode, which can change the length of a string.
    Here [can_handle] is embedded on code points, with [str.lower] as a
    parameter of which only the ASCII part is fixed. *)

Module Unicode.

(** A [str]: its code points. *)
Definition str : Type := list N.

Definition is_ascii (s : str) : bool := forallb (fun c => (c <? 128)%N) s.

(** The lower case of an ASCII letter. *)
Definition lower_ascii (c : N) : N :=
  if ((65 <=? c) && (c <=? 90))%N then (c + 32)%N else c.

(** [str.lower]: on ASCII text it lowers the letters A to Z and keeps every
    other character. *)
Class Lowering : Type := {
  lower : str -> str;
  lower_on_ascii : forall s, is_ascii s = true -> lower s = map lower_ascii s
}.

(** [hay.startswith(needle)] *)
Fixpoint starts_with (needle hay : str) : bool :=
  match needle, hay with
  | [], _ => true
  | _ :: _, [] => false
  | a :: needle', b :: hay' => (a =? b)%N && starts_with needle' hay'
  end.

(** [needle in hay] *)
Fixpoint contains (needle hay : str) : bool :=
  match hay with
  | [] => starts_with needle []
  | _ :: hay' => starts_with needle hay || contains needle hay'
  end.

(** [needle] occurs in [hay] as a contiguous block. *)
Definition substring_of (needle hay : str) : Prop :=
  exists pre post, hay = pre ++ needle ++ post.

Module AgentCapability.
Record t : Type := mk {
  domain : str;
  topics : list str;
  proficiency_level : ConfidenceLevel;
  confidence_range : Q * Q
}.

(** [any(topic.lower() in t.lower() for t in self.topics)] *)
Definition can_handle `{Lowering} (self : t) (topic : str) : bool :=
  existsb (fun t => contains (lower topic) (lower t)) (topics self).
End AgentCapability.

(** Two characters that are equal, or the two cases of one ASCII letter. *)
Definition same_letter (a b : N) : Prop :=
  a = b
  \/ ((65 <= a)%N /\ (a <= 90)%N /\ b = (a + 32)%N)
  \/ ((97 <= a)%N /\ (a <= 122)%N /\ a = (b + 32)%N).

(** Two strings that differ only in the case of ASCII letters. *)
Definition case_variant (s1 s2 : str) : Prop := Forall2 same_letter s1 s2.

(** The code points of an ASCII text of the byte-string model. *)
Definition of_string (s : string) : str :=
  map N_of_ascii (list_ascii_of_string s).

(** A lower-casing that agrees with [str.lower] on ASCII text and on the
    letter U+0130, LATIN CAPITAL LETTER I WITH DOT ABOVE, whose lower case
    is the two code points U+0069 U+0307; it keeps every other character. *)
Definition sample_lower_codepoint (c : N) : str :=
  if (c =? 304)%N then [105%N; 775%N] else [lower_ascii c].

Definition sample_lower (s : str) : str := flat_map sample_lower_codepoint s.

End Unicode.

(** A capability of the byte-string model, on code points. *)
Definition unicode_capability (c : AgentCapability.t) : Unicode.AgentCapability.t :=
  Unicode.AgentCapability.mk
    (Unicode.of_string (AgentCapability.domain c))
    (map Unicode.of_string (AgentCapability.topics c))
    (AgentCapability.proficiency_level c)
    (AgentCapability.confidence_range c).

(** An ASCII text of the byte-string model. *)
Definition ascii_text (s : string) : Prop :=
  Unicode.is_ascii (Unicode.of_string s) = true.

(** The sample lower-casing is a lower-casing: on ASCII text it lowers the
    letters. *)
Definition sample_lowering : Unicode.Lowering := {|
  Unicode.lower := Unicode.sample_lower;
  Unicode.lower_on_ascii :=
    ltac:(unfold Unicode.is_ascii, Unicode.sample_lower;
          intros s; induction s as [|c s IH]; simpl; [reflexivity |];
          rewrite andb_true_iff; intros [Hc Hs]; rewrite (IH Hs);
          unfold Unicode.sample_lower_codepoint;
          apply N.ltb_lt in Hc;
          destruct (N.eqb_spec c 304); [lia | reflexivity])
|}.

(** ** [BaseAgent.get_stats] and the query loop of the demos *)

(** The float arithmetic of [get_stats]: the sum of a list of floats and
    the true division.  Both round; they are opaque here. *)
Class PyFloat : Type := {
  float_sum : list Q -> Q;
  truediv : Q -> Q -> Q
}.

(** The statistics [get_stats] reports. *)
Module Stats.
Record t : Type := mk {
  agent_id : string;
  total_interactions : nat;
  deferred_count : nat;
  deferred_rate : Q;
  escalated_count : nat;
  avg_confidence : Q;
  learning_events : nat
}.
End Stats.

(** The dict [get_stats] returns: a message, or the statistics. *)
Inductive StatsDict : Type :=
  | StatsMessage (message : string)
  | StatsReport (stats : Stats.t).

(** [sum(1 for x in xs if p(x))] *)
Fixpoint count_where {A} (p : A -> bool) (xs : list A) : nat :=
  match xs with
  | [] => 0
  | x :: rest => ((if p x then 1 else 0) + count_where p rest)%nat
  end.

(** [len(xs)] as a number of a division. *)
Definition number (n : nat) : Q := inject_Z (Z.of_nat n).

Definition get_stats `{PyFloat} : M StatsDict :=
  interaction_history ← gets Agent.interaction_history;
  match interaction_history with
  | [] => mret (StatsMessage "No interactions yet")
  | _ :: _ =>
      let total := length interaction_history in
      let deferred := count_where Interaction.deferred interaction_history in
      let escalated :=
        count_where Interaction.should_escalate interaction_history in
      let avg_confidence :=
        truediv (float_sum (map Interaction.confidence interaction_history))
                (number total) in
      agent_id ← gets Agent.id;
      learning_log ← gets Agent.learning_log;
      mret (StatsReport
              (Stats.mk agent_id total deferred
                 (truediv (number deferred) (number total))
                 escalated avg_confidence (length learning_log)))
  end.

(** The statistics [get_stats] reports on an agent with interactions. *)
Definition stats_report `{PyFloat} (self : Agent.t) : Stats.t :=
  let history := Agent.interaction_history self in
  Stats.mk (Agent.id self) (length history)
    (count_where Interaction.deferred history)
    (truediv (number (count_where Interaction.deferred history))
             (number (length history)))
    (count_where Interaction.should_escalate history)
    (truediv (float_sum (map Interaction.confidence history))
             (number (length history)))
    (length (Agent.learning_log self)).

(** The loop of the demos: each query is sent to [handle] in turn, with the
    reading of the clock at its call; an exception ends the loop. *)
Fixpoint handle_each `{PactAx} `{PactHx}
    (calls : list (Z * Query.t)) (context : ExpressionContext.t)
  : M (list Response.t) :=
  match calls with
  | [] => mret []
  | (now, query) :: rest =>
      response ← handle now query context;
      responses ← handle_each rest context;
      mret (response :: responses)
  end.

(** The texts of [_get_coping_technique_guidance]. *)
Definition box_breathing_text : string :=
  "Let's try box breathing: Breathe in for 4 counts, hold for 4, out for 4, hold for 4. Repeat 4 times. This activates your parasympathetic nervous system.".

Definition grounding_text : string :=
  "Try the 5-4-3-2-1 technique: Name 5 things you see, 4 you can touch, 3 you hear, 2 you smell, 1 you taste. This brings you to the present moment.".

Definition mindfulness_text : string :=
  "A simple mindfulness practice: Focus on your breath for 2 minutes. When your mind wanders, gently bring attention back. No judgment, just noticing.".

Definition coping_fallback_text : string :=
  "There are several evidence-based techniques we can explore. What specifically would help you right now?".

(** The class of an agent and its declared capabilities as a constructor
    leaves them. *)
Definition as_constructed (self : Agent.t) : Prop :=
  match Agent.cls self with
  | BaseAgent => True
  | CustomerCareAgent knowledge_base =>
      knowledge_base = CustomerCareAgent_knowledge_base
      /\ Agent.capabilities self = CustomerCareAgent_capabilities
  | MentalHealthSupportAgent session_history =>
      session_history = MentalHealthSupportAgent_session_history
      /\ Agent.capabilities self = MentalHealthSupportAgent_capabilities
  | VoiceAIAssistant knowledge =>
      knowledge = VoiceAIAssistant_knowledge
      /\ Agent.capabilities self = VoiceAIAssistant_capabilities
  end.

(** An agent of one of the three subclasses. *)
Definition is_subclass (self : Agent.t) : Prop := Agent.cls self <> BaseAgent.

(** The two logs of [after] continue those of [before]. *)
Definition logs_extend (before after : Agent.t) : Prop :=
  Agent.interaction_history before `prefix_of` Agent.interaction_history after
  /\ Agent.learning_log before `prefix_of` Agent.learning_log after.

Definition sample_float : PyFloat := {|
  float_sum := fun xs => fold_right Qplus 0%Q xs;
  truediv := Qdiv
|}.

Definition voice_context : ExpressionContext.t :=
  ExpressionContext.mk VOICE_AI CONVERSATIONAL "normal".

(** * Properties *)

(** ** Facts on strings *)

Lemma app_String (c : ascii) (s t : string) :
  String c s +:+ t = String c (s +:+ t).
Proof. reflexivity. Qed.

Lemma app_Empty (t : string) : "" +:+ t = t.
Proof. reflexivity. Qed.

Lemma prefix_app (p s : string) :
  String.prefix p s = true <-> exists post, s = p +:+ post.
Proof.
  revert s; induction p as [|c p IH]; intros s; simpl.
  - destruct s; simpl; split; eauto.
  - destruct s as [|d s]; simpl.
    + split; [discriminate | intros [post H]; discriminate].
    + destruct (Ascii.ascii_dec c d) as [->|Hne].
      * rewrite IH. split; intros [post H]; exists post;
          rewrite app_String in *; congruence.
      * split; [discriminate | intros [post H]].
        rewrite app_String in H. congruence.
Qed.

Lemma contains_nil (needle : string) :
  Str.contains needle "" = String.prefix needle "".
Proof. reflexivity. Qed.

Lemma contains_cons (needle : string) (c : ascii) (hay : string) :
  Str.contains needle (String c hay)
  = String.prefix needle (String c hay) || Str.contains needle hay.
Proof. reflexivity. Qed.

Lemma contains_substring (needle hay : string) :
  Str.contains needle hay = true <-> Str.substring_of needle hay.
Proof.
  unfold Str.substring_of.
  induction hay as [|c hay IH]; [rewrite contains_nil | rewrite contains_cons].
  - rewrite prefix_app. split.
    + intros [post H]. exists "", post. exact H.
    + intros [pre [post H]]. destruct pre as [|d pre].
      * rewrite app_Empty in H. eauto.
      * rewrite app_String in H. discriminate.
  - rewrite orb_true_iff, IH, prefix_app. split.
    + intros [[post H] | [pre [post H]]].
      * exists "", post. exact H.
      * exists (String c pre), post. rewrite app_String. congruence.
    + intros [pre [post H]]. destruct pre as [|d pre].
      * left. rewrite app_Empty in H. eauto.
      * right. rewrite app_String in H. exists pre, post. congruence.
Qed.

Lemma lower_ascii_idem (c : ascii) :
  Str.lower_ascii (Str.lower_ascii c) = Str.lower_ascii c.
Proof.
  destruct c as [[] [] [] [] [] [] [] []]; reflexivity.
Qed.

Lemma lower_idem (s : string) : Str.lower (Str.lower s) = Str.lower s.
Proof.
  induction s as [|c s IH]; simpl; [reflexivity |].
  rewrite lower_ascii_idem, IH. reflexivity.
Qed.

(** ** Facts on float comparison *)

Lemma Qltb_lt (x y : Q) : Qltb x y = true <-> (x < y)%Q.
Proof.
  unfold Qltb. rewrite negb_true_iff. split.
  - intros H. apply Qnot_le_lt. intros Hle.
    apply Qle_bool_iff in Hle. congruence.
  - intros H. destruct (Qle_bool y x) eqn:E; [|reflexivity].
    apply Qle_bool_iff in E. exfalso. exact (Qlt_not_le _ _ H E).
Qed.

Lemma Qltb_ge (x y : Q) : Qltb x y = false <-> (y <= x)%Q.
Proof.
  unfold Qltb. rewrite negb_false_iff. apply Qle_bool_iff.
Qed.


(** ** The model on the texts of the demos *)

Example lower_hours :
  Str.lower "What are YOUR Hours?" = "what are your hours?".
Proof. reflexivity. Qed.

Example title_usa : Str.title "usa" = "Usa".
Proof. reflexivity. Qed.

Example contains_hours :
  Str.contains "hours" "what are your hours?" = true
  /\ Str.contains "what are your hours?" "hours" = false
  /\ Str.contains "" "hours" = true.
Proof. repeat split. Qed.

(** [can_handle] looks for the string inside a topic, not for a topic
    inside the string. *)
Example can_handle_hours :
  AgentCapability.can_handle hours_capability "HOUR" = true
  /\ AgentCapability.can_handle hours_capability "What are your hours?" = false.
Proof. split; reflexivity. Qed.

Example relevant_capability_by_domain :
  relevant_capability CustomerCareAgent_capabilities password_query
  = CustomerCareAgent_capabilities !! 1%nat.
Proof. reflexivity. Qed.

Example relevant_capability_crisis :
  relevant_capability MentalHealthSupportAgent_capabilities crisis_query = None.
Proof. reflexivity. Qed.

Example care_confidence_hours :
  CustomerCareAgent_assess_confidence CustomerCareAgent_knowledge_base
    hours_query hours_capability = CERTAIN.
Proof. reflexivity. Qed.

(** ** Running the methods *)

Ltac run_M :=
  unfold mbind, M_bind, mret, M_ret, bind, ret, raise, gets, modify, index, getitem
    in *; simpl in *.

Section Running.
Context `{PactAx} `{PactHx}.

Import AgentCapability.

Lemma assess_confidence_run (q : Query.t) (cap : AgentCapability.t)
    (self : Agent.t) :
  _assess_confidence q cap self
  = (inr (assessed_confidence (Agent.cls self) q cap), self).
Proof.
  unfold _assess_confidence, assessed_confidence. run_M.
  destruct (Agent.cls self); reflexivity.
Qed.

(** [assess_capability] in one equation: what it returns, and the agent
    it leaves. *)
Lemma assess_capability_run (q : Query.t) (self : Agent.t) :
  assess_capability q self =
  match relevant_capability (Agent.capabilities self) q with
  | None => (inr (unknown_state self q), self)
  | Some cap =>
      let confidence := assessed_confidence (Agent.cls self) q cap in
      match Agent.boundaries self !! 0%nat with
      | None => (inl IndexError, self)
      | Some primary =>
          (inr (if Qltb (level_value confidence) (Query.required_confidence q)
                then deferral_state self q confidence primary
                else can_handle_state confidence primary),
           self)
      end
  end.
Proof.
  unfold assess_capability.
  unfold mbind at 1, M_bind at 1, bind at 1, gets at 1.
  destruct (relevant_capability (Agent.capabilities self) q) as [cap|].
  - unfold mbind at 1, M_bind at 1, bind at 1.
    rewrite assess_confidence_run. cbv zeta.
    destruct (Qltb _ _); run_M;
      destruct (Agent.boundaries self !! 0%nat); reflexivity.
  - reflexivity.
Qed.

End Running.

(** ** The topic predicate of a capability *)

Lemma can_handle_iff (c : AgentCapability.t) (s : string) :
  AgentCapability.can_handle c s = true <->
  exists t, In t (AgentCapability.topics c)
            /\ Str.substring_of (Str.lower s) (Str.lower t).
Proof.
  unfold AgentCapability.can_handle. rewrite existsb_exists.
  split; intros [t [Hin Ht]]; exists t; split; trivial;
    apply contains_substring; exact Ht.
Qed.

(** ** The topic predicate on Unicode text *)

Lemma starts_with_app (needle hay : Unicode.str) :
  Unicode.starts_with needle hay = true <-> exists post, hay = needle ++ post.
Proof.
  revert hay. induction needle as [|a needle IH]; intros hay; simpl.
  - split; eauto.
  - destruct hay as [|b hay].
    + split; [discriminate | intros [post Hpost]; discriminate].
    + rewrite andb_true_iff, N.eqb_eq, IH. split.
      * intros [-> [post ->]]. eauto.
      * intros [post [= -> ->]]. eauto.
Qed.

Lemma unicode_contains_substring (needle hay : Unicode.str) :
  Unicode.contains needle hay = true <-> Unicode.substring_of needle hay.
Proof.
  unfold Unicode.substring_of. induction hay as [|c hay IH].
  - simpl. destruct needle as [|a needle]; simpl.
    + split; [intros _; exists [], []; reflexivity | reflexivity].
    + split; [discriminate |].
      intros [pre [post Heq]]. destruct pre; discriminate.
  - change (Unicode.contains needle (c :: hay))
      with (Unicode.starts_with needle (c :: hay) || Unicode.contains needle hay).
    rewrite orb_true_iff, IH, starts_with_app. split.
    + intros [[post Heq] | [pre [post Heq]]].
      * exists [], post. exact Heq.
      * exists (c :: pre), post. simpl. congruence.
    + intros [pre [post Heq]]. destruct pre as [|d pre]; simpl in Heq.
      * left. eauto.
      * right. injection Heq as _ Heq. eauto.
Qed.

Lemma unicode_substring_length (needle hay : Unicode.str) :
  Unicode.substring_of needle hay -> (length needle <= length hay)%nat.
Proof. intros [pre [post ->]]. rewrite !length_app. lia. Qed.

Lemma unicode_substring_trans (a b c : Unicode.str) :
  Unicode.substring_of a b -> Unicode.substring_of b c ->
  Unicode.substring_of a c.
Proof.
  intros [pre1 [post1 ->]] [pre2 [post2 ->]].
  exists (pre2 ++ pre1), (post1 ++ post2).
  rewrite <- !app_assoc. reflexivity.
Qed.

Lemma unicode_substring_map (f : N -> N) (a b : Unicode.str) :
  Unicode.substring_of a b -> Unicode.substring_of (map f a) (map f b).
Proof.
  intros [pre [post ->]]. exists (map f pre), (map f post).
  rewrite !map_app. reflexivity.
Qed.

Lemma unicode_substring_ascii (a b : Unicode.str) :
  Unicode.substring_of a b ->
  Unicode.is_ascii b = true -> Unicode.is_ascii a = true.
Proof.
  intros [pre [post ->]]. unfold Unicode.is_ascii.
  rewrite !forallb_app, !andb_true_iff. tauto.
Qed.

Lemma same_letter_lower (a b : N) :
  Unicode.same_letter a b -> Unicode.lower_ascii a = Unicode.lower_ascii b.
Proof.
  unfold Unicode.same_letter, Unicode.lower_ascii.
  intros [-> | [(Ha1 & Ha2 & ->) | (Ha1 & Ha2 & ->)]]; [reflexivity | |].
  - replace ((65 <=? a) && (a <=? 90))%N with true
      by (symmetry; apply andb_true_iff; split; apply N.leb_le; assumption).
    replace ((65 <=? a + 32) && (a + 32 <=? 90))%N with false; [reflexivity |].
    symmetry. apply andb_false_iff. right. apply N.leb_gt. lia.
  - replace ((65 <=? b + 32) && (b + 32 <=? 90))%N with false
      by (symmetry; apply andb_false_iff; right; apply N.leb_gt; lia).
    replace ((65 <=? b) && (b <=? 90))%N with true; [reflexivity |].
    symmetry. apply andb_true_iff. split; apply N.leb_le; lia.
Qed.

Lemma same_letter_ascii (a b : N) :
  Unicode.same_letter a b -> (a <? 128)%N = true -> (b <? 128)%N = true.
Proof.
  unfold Unicode.same_letter. rewrite !N.ltb_lt.
  intros [-> | [(Ha1 & Ha2 & ->) | (Ha1 & Ha2 & ->)]]; lia.
Qed.

Lemma case_variant_lower (s1 s2 : Unicode.str) :
  Unicode.case_variant s1 s2 ->
  map Unicode.lower_ascii s1 = map Unicode.lower_ascii s2.
Proof.
  induction 1 as [|a b s1 s2 Hab _ IH]; simpl; [reflexivity |].
  rewrite (same_letter_lower a b Hab), IH. reflexivity.
Qed.

Lemma case_variant_ascii (s1 s2 : Unicode.str) :
  Unicode.case_variant s1 s2 ->
  Unicode.is_ascii s1 = true -> Unicode.is_ascii s2 = true.
Proof.
  unfold Unicode.is_ascii.
  induction 1 as [|a b s1 s2 Hab _ IH]; simpl; [reflexivity |].
  rewrite !andb_true_iff. intros [Ha Hs].
  split; [exact (same_letter_ascii a b Hab Ha) | exact (IH Hs)].
Qed.

(** ** The byte-string model agrees with the Unicode model on ASCII text *)

Lemma of_string_String (c : ascii) (s : string) :
  Unicode.of_string (String c s) = N_of_ascii c :: Unicode.of_string s.
Proof. reflexivity. Qed.

Lemma N_of_ascii_inj (a b : ascii) : N_of_ascii a = N_of_ascii b -> a = b.
Proof.
  intros Heq. rewrite <- (ascii_N_embedding a), <- (ascii_N_embedding b), Heq.
  reflexivity.
Qed.

Lemma of_string_prefix (needle hay : string) :
  String.prefix needle hay
  = Unicode.starts_with (Unicode.of_string needle) (Unicode.of_string hay).
Proof.
  revert hay. induction needle as [|a needle IH]; intros hay.
  - destruct hay; reflexivity.
  - destruct hay as [|b hay]; [reflexivity |].
    rewrite !of_string_String. simpl.
    destruct (Ascii.ascii_dec a b) as [->|Hne].
    + rewrite N.eqb_refl. simpl. apply IH.
    + destruct (N.eqb_spec (N_of_ascii a) (N_of_ascii b)) as [Heq|_];
        [| reflexivity].
      apply N_of_ascii_inj in Heq. contradiction.
Qed.

Lemma of_string_contains (needle hay : string) :
  Str.contains needle hay
  = Unicode.contains (Unicode.of_string needle) (Unicode.of_string hay).
Proof.
  induction hay as [|c hay IH].
  - rewrite contains_nil, of_string_prefix. reflexivity.
  - rewrite contains_cons, of_string_prefix, IH. reflexivity.
Qed.

Lemma of_string_lower_ascii (c : ascii) :
  N_of_ascii (Str.lower_ascii c) = Unicode.lower_ascii (N_of_ascii c).
Proof.
  destruct c as [[] [] [] [] [] [] [] []]; reflexivity.
Qed.

Lemma of_string_lower (s : string) :
  Unicode.of_string (Str.lower s)
  = map Unicode.lower_ascii (Unicode.of_string s).
Proof.
  induction s as [|c s IH]; [reflexivity |].
  simpl Str.lower. rewrite !of_string_String. simpl.
  rewrite of_string_lower_ascii, IH. reflexivity.
Qed.

Section Agreement.
Context `{Unicode.Lowering}.

(** On ASCII text the topic predicate of the byte-string model is the one
    on code points, whatever [str.lower] does elsewhere. *)
Lemma can_handle_agrees_on_ascii (c : AgentCapability.t) (s : string) :
  ascii_text s ->
  Forall ascii_text (AgentCapability.topics c) ->
  Unicode.AgentCapability.can_handle (unicode_capability c) (Unicode.of_string s)
  = AgentCapability.can_handle c s.
Proof.
  unfold ascii_text. intros Hs Htopics.
  unfold Unicode.AgentCapability.can_handle, AgentCapability.can_handle. simpl.
  rewrite (Unicode.lower_on_ascii _ Hs).
  induction Htopics as [|t ts Ht _ IH]; simpl; [reflexivity |].
  rewrite IH, (Unicode.lower_on_ascii _ Ht).
  rewrite of_string_contains, !of_string_lower. reflexivity.
Qed.

End Agreement.

Section TopicPredicate.
Context `{Unicode.Lowering}.

Lemma unicode_can_handle_iff (c : Unicode.AgentCapability.t) (s : Unicode.str) :
  Unicode.AgentCapability.can_handle c s = true <->
  exists t, In t (Unicode.AgentCapability.topics c)
            /\ Unicode.substring_of (Unicode.lower s) (Unicode.lower t).
Proof.
  unfold Unicode.AgentCapability.can_handle. rewrite existsb_exists.
  split; intros [t [Hin Ht]]; exists t; split; trivial;
    apply unicode_contains_substring; exact Ht.
Qed.

(** C8, as the code has it.  [can_handle] holds exactly when the lower-cased
    string occurs in the lower-casing of some declared topic.  On ASCII
    strings it does not change when the case of letters does.  It fails
    when the lower-cased string is longer than the lower-casing of every
    topic, and so, on ASCII text, for a string longer than every topic. *)
Theorem can_handle_lowercased_substring
    (c : Unicode.AgentCapability.t) (s : Unicode.str) :
  (Unicode.AgentCapability.can_handle c s = true <->
     exists t, In t (Unicode.AgentCapability.topics c)
               /\ Unicode.substring_of (Unicode.lower s) (Unicode.lower t))
  /\ (forall s',
        Unicode.is_ascii s = true ->
        Unicode.case_variant s s' ->
        Unicode.AgentCapability.can_handle c s'
        = Unicode.AgentCapability.can_handle c s)
  /\ ((forall t, In t (Unicode.AgentCapability.topics c) ->
         (length (Unicode.lower t) < length (Unicode.lower s))%nat) ->
      Unicode.AgentCapability.can_handle c s = false)
  /\ (Unicode.is_ascii s = true ->
      (forall t, In t (Unicode.AgentCapability.topics c) ->
         Unicode.is_ascii t = true /\ (length t < length s)%nat) ->
      Unicode.AgentCapability.can_handle c s = false).
Proof.
  assert ((forall t, In t (Unicode.AgentCapability.topics c) ->
             (length (Unicode.lower t) < length (Unicode.lower s))%nat) ->
          Unicode.AgentCapability.can_handle c s = false) as Hlong.
  { intros Hlen.
    destruct (Unicode.AgentCapability.can_handle c s) eqn:E;
      [exfalso | reflexivity].
    apply unicode_can_handle_iff in E. destruct E as [t [Hin Hsub]].
    apply unicode_substring_length in Hsub.
    specialize (Hlen t Hin). lia. }
  split; [apply unicode_can_handle_iff |]. split; [| split].
  - intros s' Hascii Hcase. unfold Unicode.AgentCapability.can_handle.
    rewrite (Unicode.lower_on_ascii s Hascii).
    rewrite (Unicode.lower_on_ascii s' (case_variant_ascii s s' Hcase Hascii)).
    rewrite (case_variant_lower s s' Hcase). reflexivity.
  - exact Hlong.
  - intros Hascii Htopics. apply Hlong. intros t Hin.
    destruct (Htopics t Hin) as [Ht Hlen].
    rewrite (Unicode.lower_on_ascii s Hascii), (Unicode.lower_on_ascii t Ht).
    rewrite !length_map. exact Hlen.
Qed.

End TopicPredicate.


(** The topic U+0130, of one character, and the string U+0069 U+0307, of
    two: the lower case of the topic is the string itself, so the
    capability handles a string longer than its only topic. *)
Lemma can_handle_longer_than_every_topic :
  let c := Unicode.AgentCapability.mk [] [[304%N]] UNKNOWN (0, 1)%Q in
  let s := [105%N; 775%N] in
  @Unicode.AgentCapability.can_handle sample_lowering c s = true
  /\ (forall t, In t (Unicode.AgentCapability.topics c) ->
        (length t < length s)%nat).
Proof.
  cbv zeta. split; [reflexivity |].
  intros t [<- | []]. simpl. lia.
Qed.

(** On ASCII text: the topic [hours] handles [HOUR], and does not handle the
    longer [our hours]. *)
Lemma can_handle_lowercased_substring_example :
  let c := unicode_capability hours_capability in
  @Unicode.AgentCapability.can_handle sample_lowering c
    (Unicode.of_string "HOUR") = true
  /\ @Unicode.AgentCapability.can_handle sample_lowering c
       (Unicode.of_string "our hours") = false.
Proof. split; reflexivity. Qed.

(** ** Capability selection *)

Lemma relevant_capability_some (caps : list AgentCapability.t) (q : Query.t)
    (cap : AgentCapability.t) :
  relevant_capability caps q = Some cap <->
  exists before after,
    caps = before ++ cap :: after
    /\ Forall (fun c => matches_query q c = false) before
    /\ matches_query q cap = true.
Proof.
  induction caps as [|c caps IH]; simpl.
  - split; [discriminate |].
    intros [before [after [Heq _]]]. destruct before; discriminate.
  - fold (matches_query q c). destruct (matches_query q c) eqn:Hc.
    + split.
      * intros [= <-]. exists [], caps. auto.
      * intros [before [after [Heq [Hbefore Hcap]]]].
        destruct before as [|b before]; simpl in Heq.
        -- congruence.
        -- injection Heq as <- _. inversion Hbefore; congruence.
    + rewrite IH. split.
      * intros [before [after [-> [Hbefore Hcap]]]].
        exists (c :: before), after. auto.
      * intros [before [after [Heq [Hbefore Hcap]]]].
        destruct before as [|b before]; simpl in Heq.
        -- congruence.
        -- injection Heq as <- ->. inversion Hbefore; subst. eauto.
Qed.

Lemma relevant_capability_none (caps : list AgentCapability.t) (q : Query.t) :
  relevant_capability caps q = None <->
  Forall (fun c => matches_query q c = false) caps.
Proof.
  induction caps as [|c caps IH]; simpl.
  - split; auto.
  - fold (matches_query q c). destruct (matches_query q c) eqn:Hc.
    + split; [discriminate | intros Hall; inversion Hall; congruence].
    + rewrite IH. split; [auto | intros Hall; inversion Hall; trivial].
Qed.

Section Selection.
Context `{PactAx} `{PactHx}.

(** C5. Capability selection scans the declared capabilities in
    declaration order and returns the first whose domain is the query's or
    that can handle the content; with several candidates the earliest one
    is selected and assessed; with none, no capability is returned and
    [assess_capability] takes the unknown-domain path. *)
Theorem capability_selection_first_match (self : Agent.t) (q : Query.t) :
  let caps := Agent.capabilities self in
  (forall cap,
      relevant_capability caps q = Some cap <->
      exists before after,
        caps = before ++ cap :: after
        /\ Forall (fun c => matches_query q c = false) before
        /\ matches_query q cap = true)
  /\ (relevant_capability caps q = None <->
      Forall (fun c => matches_query q c = false) caps)
  /\ (forall cap st,
        relevant_capability caps q = Some cap ->
        fst (assess_capability q self) = inr st ->
        EpistemicState.confidence st
        = assessed_confidence (Agent.cls self) q cap)
  /\ (relevant_capability caps q = None ->
      assess_capability q self = (inr (unknown_state self q), self)).
Proof.
  cbv zeta. split; [intros cap; apply relevant_capability_some |].
  split; [apply relevant_capability_none |]. split.
  - intros cap st Hcap. rewrite assess_capability_run, Hcap. cbv zeta.
    destruct (Agent.boundaries self !! 0%nat); simpl; [| discriminate].
    intros [= <-]. destruct (Qltb _ _); reflexivity.
  - intros Hnone. rewrite assess_capability_run, Hnone. reflexivity.
Qed.

End Selection.

(** ** Frame properties: what the methods leave unchanged *)

Ltac split_match :=
  repeat match goal with
         | |- context [match ?x with _ => _ end] =>
             lazymatch x with
             | context [match _ with _ => _ end] => fail
             | _ => destruct x eqn:?; simpl
             end
         end.

Section Frame.
Context `{PactAx} `{PactHx}.

Lemma assess_capability_frame (q : Query.t) (self : Agent.t) :
  snd (assess_capability q self) = self.
Proof.
  rewrite assess_capability_run. cbv zeta. split_match; reflexivity.
Qed.

Lemma CustomerCareAgent_generate_answer_frame kb q ctx (self : Agent.t) :
  snd (CustomerCareAgent_generate_answer kb q ctx self) = self.
Proof.
  unfold CustomerCareAgent_generate_answer. run_M. split_match; reflexivity.
Qed.

Lemma MentalHealthSupportAgent_generate_answer_frame sh q ctx (self : Agent.t) :
  snd (MentalHealthSupportAgent_generate_answer sh q ctx self) = self.
Proof.
  unfold MentalHealthSupportAgent_generate_answer. run_M.
  split_match; reflexivity.
Qed.

Lemma VoiceAIAssistant_generate_answer_frame kn q ctx (self : Agent.t) :
  snd (VoiceAIAssistant_generate_answer kn q ctx self) = self.
Proof.
  unfold VoiceAIAssistant_generate_answer. run_M.
  split_match; reflexivity.
Qed.

Lemma generate_answer_frame (q : Query.t) (ctx : ExpressionContext.t)
    (self : Agent.t) :
  snd (_generate_answer q ctx self) = self.
Proof.
  unfold _generate_answer.
  unfold mbind at 1, M_bind at 1, bind at 1, gets at 1.
  destruct (Agent.cls self).
  - reflexivity.
  - apply CustomerCareAgent_generate_answer_frame.
  - apply MentalHealthSupportAgent_generate_answer_frame.
  - apply VoiceAIAssistant_generate_answer_frame.
Qed.

Lemma terminal_state_frame (q : Query.t) (ctx : ExpressionContext.t)
    (self : Agent.t) :
  snd (terminal_state q ctx self) = self.
Proof.
  unfold terminal_state.
  unfold mbind at 1, M_bind at 1, bind at 1.
  pose proof (assess_capability_frame q self) as Ha.
  destruct (assess_capability q self) as [[e|st] self']; simpl in Ha; subst self'.
  - reflexivity.
  - destruct (should_defer st _ _); [reflexivity |].
    unfold mbind, M_bind, bind.
    pose proof (generate_answer_frame q ctx self) as Hg.
    destruct (_generate_answer q ctx self) as [[e|st'] self'];
      simpl in Hg; subst self'; reflexivity.
Qed.

(** [handle] renders and logs its terminal state. *)
Lemma handle_run (now : Z) (q : Query.t) (ctx : ExpressionContext.t)
    (self : Agent.t) :
  handle now q ctx self =
  match fst (terminal_state q ctx self) with
  | inl e => (inl e, self)
  | inr (st, deferred, delegate_to) =>
      let response := express st ctx (Query.content q) delegate_to in
      (inr response, log_interaction (logged now q st response deferred) self)
  end.
Proof.
  unfold handle, terminal_state.
  unfold mbind, M_bind, bind.
  pose proof (assess_capability_frame q self) as Ha.
  destruct (assess_capability q self) as [[e|st] self']; simpl in Ha; subst self'.
  - reflexivity.
  - destruct (should_defer st _ _); [reflexivity |].
    pose proof (generate_answer_frame q ctx self) as Hg.
    destruct (_generate_answer q ctx self) as [[e|st'] self'];
      simpl in Hg; subst self'; reflexivity.
Qed.

Lemma handle_frame (now : Z) (q : Query.t) (ctx : ExpressionContext.t)
    (self : Agent.t) :
  match handle now q ctx self with
  | (inr _, self') => exists e, self' = log_interaction e self
  | (inl _, self') => self' = self
  end.
Proof.
  rewrite handle_run.
  destruct (fst (terminal_state q ctx self)) as [e|[[st deferred] delegate_to]].
  - reflexivity.
  - cbv zeta. eexists. reflexivity.
Qed.

Lemma pre_assess_frame (q : Query.t) (pool : list Agent.t) :
  snd (pre_assess q pool) = pool.
Proof.
  induction pool as [|agent pool IH]; simpl; [reflexivity |].
  pose proof (assess_capability_frame q agent) as Ha.
  destruct (assess_capability q agent) as [r agent']. simpl in Ha. subst agent'.
  destruct (pre_assess q pool) as [rs pool']. simpl in *. congruence.
Qed.

(** C7. [assess_capability] has no side effect: whatever it returns, the
    agent it leaves is the agent it was given, with the same capabilities,
    boundaries, delegation map, interaction history and learning log.  So
    the pre-assessment of a pool leaves every agent of the pool as it was,
    and the interaction is logged by [handle] alone, once, when it
    returns. *)
Theorem assess_capability_side_effect_free (q : Query.t) (self : Agent.t) :
  snd (assess_capability q self) = self
  /\ (forall pool, snd (pre_assess q pool) = pool)
  /\ (forall now ctx,
        match handle now q ctx self with
        | (inr _, self') =>
            exists e,
              Agent.interaction_history self'
              = Agent.interaction_history self ++ [e]
              /\ self' = log_interaction e self
        | (inl _, self') => self' = self
        end).
Proof.
  split; [apply assess_capability_frame |].
  split; [intros pool; apply pre_assess_frame |].
  intros now ctx. pose proof (handle_frame now q ctx self) as Hh.
  destruct (handle now q ctx self) as [[e|r] self']; [exact Hh |].
  destruct Hh as [e ->]. exists e. split; reflexivity.
Qed.

End Frame.

(** ** The boundaries of an agent *)

Lemma build_boundaries_loop_map (capabilities : list AgentCapability.t)
    (boundaries : list KnowledgeBoundary.t) :
  _build_boundaries_loop capabilities boundaries
  = boundaries ++ map boundary_of capabilities.
Proof.
  revert boundaries.
  induction capabilities as [|capability rest IH]; intros boundaries; simpl.
  - rewrite app_nil_r. reflexivity.
  - rewrite IH, <- app_assoc. reflexivity.
Qed.

Lemma build_boundaries_map (capabilities : list AgentCapability.t) :
  _build_boundaries capabilities = map boundary_of capabilities.
Proof. unfold _build_boundaries. apply build_boundaries_loop_map. Qed.

Lemma update_matching_boundaries_length domain limit capability boundaries :
  length (update_matching_boundaries domain limit capability boundaries)
  = length boundaries.
Proof. induction boundaries; simpl; congruence. Qed.

(** An agent whose capabilities are [capabilities] and whose boundaries
    are those [_build_boundaries] computes from them. *)
Lemma constructed_on_built (capabilities : list AgentCapability.t)
    (self : Agent.t) :
  Agent.capabilities self = capabilities ->
  Agent.boundaries self = _build_boundaries capabilities ->
  Agent.interaction_history self = [] ->
  Agent.learning_log self = [] ->
  constructed_on capabilities self.
Proof.
  intros Hcaps Hbounds Hhistory Hlog. unfold constructed_on.
  rewrite Hcaps, Hbounds, build_boundaries_map.
  split; [reflexivity |]. split; [reflexivity |]. split; [| auto].
  intros i capability Hi. exists (boundary_of capability).
  rewrite list_lookup_fmap, Hi. auto.
Qed.

Section Boundaries.
Context `{PactAx} `{PactHx}.

Lemma learn_from_outcome_run (now : Z) (q : Query.t) (st : EpistemicState.t)
    (actual_outcome : bool) (feedback : option string) (self : Agent.t) :
  learn_from_outcome now q st actual_outcome feedback self =
  let predicted := level_value (EpistemicState.confidence st) in
  let self1 :=
    Agent.set_learning_log
      (Agent.learning_log self ++
         [LearningEvent.mk now (Query.content q) predicted actual_outcome feedback])
      self in
  let self2 :=
    if negb actual_outcome && Qltb (6 # 10) predicted
    then Agent.set_boundaries
           (update_matching_boundaries (Query.domain q)
              (Some (Query.content q)) None (Agent.boundaries self1)) self1
    else self1 in
  (inr tt,
   if actual_outcome && Qltb predicted (1 # 2)
   then Agent.set_boundaries
          (update_matching_boundaries (Query.domain q)
             None (Some (Query.content q)) (Agent.boundaries self2)) self2
   else self2).
Proof.
  unfold learn_from_outcome. cbv zeta. run_M.
  destruct (negb actual_outcome && Qltb (6 # 10) _);
    destruct (actual_outcome && Qltb _ (1 # 2)); reflexivity.
Qed.

Lemma learn_from_outcome_cover now q st actual_outcome feedback self :
  boundaries_cover self ->
  boundaries_cover (snd (learn_from_outcome now q st actual_outcome feedback self)).
Proof.
  unfold boundaries_cover. intros Hc.
  rewrite learn_from_outcome_run. cbv zeta. simpl.
  destruct (negb actual_outcome && Qltb (6 # 10) _);
    destruct (actual_outcome && Qltb _ (1 # 2)); simpl;
    rewrite ?update_matching_boundaries_length; exact Hc.
Qed.

Lemma handle_cover now q ctx self :
  boundaries_cover self -> boundaries_cover (snd (handle now q ctx self)).
Proof.
  intros Hc. pose proof (handle_frame now q ctx self) as Hh.
  destruct (handle now q ctx self) as [[e|r] self']; simpl.
  - subst. exact Hc.
  - destruct Hh as [e ->]. exact Hc.
Qed.

Lemma reachable_cover (self : Agent.t) :
  reachable self -> boundaries_cover self.
Proof.
  induction 1 as
    [agent_id name domain capabilities self Hinit
    |agent_id self Hinit |agent_id self Hinit |agent_id self Hinit
    |domain delegate_id reason self _ IH
    |query self _ IH
    |now query context self _ IH
    |now query st outcome feedback self _ IH].
  - injection Hinit as <-. unfold boundaries_cover. simpl.
    rewrite build_boundaries_map, length_map. reflexivity.
  - injection Hinit as <-. reflexivity.
  - injection Hinit as <-. reflexivity.
  - injection Hinit as <-. reflexivity.
  - exact IH.
  - rewrite assess_capability_frame. exact IH.
  - apply handle_cover, IH.
  - apply learn_from_outcome_cover, IH.
Qed.

(** C10. The constructor builds one boundary for each declared
    capability, in the same order, with the capability's topics as known
    capabilities and no known limit: the agent [BaseAgent.__init__] returns
    holds the capabilities it was given and these boundaries, and so does
    the agent of each subclass constructor for the capabilities it
    declares.  The boundaries and the capabilities of an agent keep the
    same length through every method; and when a capability matches a
    query, [boundaries[0]] exists, so [assess_capability] returns a state
    and raises nothing. *)
Theorem boundaries_built_per_capability :
  (forall capabilities,
      _build_boundaries capabilities = map boundary_of capabilities
      /\ length (_build_boundaries capabilities) = length capabilities
      /\ forall i capability,
           capabilities !! i = Some capability ->
           exists boundary,
             _build_boundaries capabilities !! i = Some boundary
             /\ KnowledgeBoundary.domain boundary
                = AgentCapability.domain capability
             /\ KnowledgeBoundary.known_capabilities boundary
                = list_to_set (AgentCapability.topics capability)
             /\ KnowledgeBoundary.known_limits boundary = ∅)
  /\ (forall agent_id name domain capabilities,
        exists self,
          BaseAgent_init agent_id name domain capabilities = inr self
          /\ constructed_on capabilities self)
  /\ (forall agent_id,
        (exists self,
            CustomerCareAgent_init agent_id = inr self
            /\ constructed_on CustomerCareAgent_capabilities self)
        /\ (exists self,
              MentalHealthSupportAgent_init agent_id = inr self
              /\ constructed_on MentalHealthSupportAgent_capabilities self)
        /\ (exists self,
              VoiceAIAssistant_init agent_id = inr self
              /\ constructed_on VoiceAIAssistant_capabilities self))
  /\ (forall self,
        reachable self ->
        length (Agent.boundaries self) = length (Agent.capabilities self))
  /\ (forall self q cap,
        reachable self ->
        relevant_capability (Agent.capabilities self) q = Some cap ->
        is_Some (Agent.boundaries self !! 0%nat)
        /\ exists st, assess_capability q self = (inr st, self)).
Proof.
  split; [| split; [| split; [| split]]].
  - intros capabilities. rewrite build_boundaries_map. split; [reflexivity |].
    split; [apply length_map |].
    intros i capability Hi. exists (boundary_of capability).
    rewrite list_lookup_fmap, Hi. auto.
  - intros agent_id name domain capabilities. eexists. split; [reflexivity |].
    apply constructed_on_built; reflexivity.
  - intros agent_id.
    split; [| split]; (eexists; split; [reflexivity |]);
      apply constructed_on_built; reflexivity.
  - apply reachable_cover.
  - intros self q cap Hr Hcap.
    pose proof (reachable_cover self Hr) as Hc. unfold boundaries_cover in Hc.
    assert (is_Some (Agent.boundaries self !! 0%nat)) as Hsome.
    { apply lookup_lt_is_Some. rewrite Hc.
      destruct (Agent.capabilities self); [discriminate | simpl; lia]. }
    split; [exact Hsome |].
    destruct Hsome as [primary Hp].
    rewrite assess_capability_run, Hcap. cbv zeta. rewrite Hp. eauto.
Qed.

End Boundaries.

(** ** The learning loop *)

Lemma update_matching_limit (domain text : string)
    (boundaries : list KnowledgeBoundary.t) :
  update_matching_boundaries domain (Some text) None boundaries
  = on_domain domain (add_limit text) boundaries.
Proof.
  unfold on_domain. induction boundaries as [|b rest IH]; simpl; [reflexivity |].
  rewrite IH. f_equal.
  destruct (String.eqb_spec (KnowledgeBoundary.domain b) domain);
    case_decide; try congruence; reflexivity.
Qed.

Lemma update_matching_capability (domain text : string)
    (boundaries : list KnowledgeBoundary.t) :
  update_matching_boundaries domain None (Some text) boundaries
  = on_domain domain (add_capability text) boundaries.
Proof.
  unfold on_domain. induction boundaries as [|b rest IH]; simpl; [reflexivity |].
  rewrite IH. f_equal.
  destruct (String.eqb_spec (KnowledgeBoundary.domain b) domain);
    case_decide; try congruence; reflexivity.
Qed.

Lemma on_domain_absent (domain : string)
    (f : KnowledgeBoundary.t -> KnowledgeBoundary.t)
    (boundaries : list KnowledgeBoundary.t) :
  Forall (fun b => KnowledgeBoundary.domain b <> domain) boundaries ->
  on_domain domain f boundaries = boundaries.
Proof.
  unfold on_domain. induction 1 as [|b rest Hb _ IH]; simpl; [reflexivity |].
  rewrite IH. case_decide; [contradiction | reflexivity].
Qed.

Section Learning.
Context `{PactAx} `{PactHx}.

(** C6. [learn_from_outcome] always returns and appends one event to the
    learning log.  After a wrong outcome predicted with a score above 0.6,
    the content of the query is added to the known limits of every
    boundary of the query's domain; after a right outcome predicted with a
    score below 0.5, it is added to their known capabilities; in every
    other case, and when no boundary has the query's domain, the
    boundaries are unchanged.  Nothing else of the agent changes. *)
Theorem learn_from_outcome_policy (now : Z) (q : Query.t)
    (predicted_state : EpistemicState.t) (actual_outcome : bool)
    (feedback : option string) (self : Agent.t) :
  let score := level_value (EpistemicState.confidence predicted_state) in
  let result := learn_from_outcome now q predicted_state actual_outcome feedback self in
  let self' := snd result in
  fst result = inr tt
  /\ Agent.learning_log self'
     = Agent.learning_log self ++
         [LearningEvent.mk now (Query.content q) score actual_outcome feedback]
  /\ (actual_outcome = false -> (6 # 10 < score)%Q ->
      Agent.boundaries self'
      = on_domain (Query.domain q) (add_limit (Query.content q))
          (Agent.boundaries self))
  /\ (actual_outcome = true -> (score < 1 # 2)%Q ->
      Agent.boundaries self'
      = on_domain (Query.domain q) (add_capability (Query.content q))
          (Agent.boundaries self))
  /\ (~ (actual_outcome = false /\ (6 # 10 < score)%Q) ->
      ~ (actual_outcome = true /\ (score < 1 # 2)%Q) ->
      Agent.boundaries self' = Agent.boundaries self)
  /\ (Forall (fun b => KnowledgeBoundary.domain b <> Query.domain q)
             (Agent.boundaries self) ->
      Agent.boundaries self' = Agent.boundaries self)
  /\ Agent.cls self' = Agent.cls self
  /\ Agent.capabilities self' = Agent.capabilities self
  /\ Agent.delegation_map self' = Agent.delegation_map self
  /\ Agent.interaction_history self' = Agent.interaction_history self.
Proof.
  cbv zeta. rewrite learn_from_outcome_run. cbv zeta.
  set (score := level_value (EpistemicState.confidence predicted_state)).
  destruct actual_outcome; simpl.
  - (* the outcome was right *)
    destruct (Qltb score (1 # 2)) eqn:Hlow; simpl.
    + apply Qltb_lt in Hlow. rewrite update_matching_capability.
      repeat split; try reflexivity; try discriminate.
      * intros _ Hnot. exfalso. apply Hnot. split; [reflexivity | exact Hlow].
      * intros Habsent. apply on_domain_absent, Habsent.
    + apply Qltb_ge in Hlow.
      repeat split; try reflexivity; try discriminate.
      intros _ Hlt. exfalso. exact (Qlt_not_le _ _ Hlt Hlow).
  - (* the outcome was wrong *)
    destruct (Qltb (6 # 10) score) eqn:Hhigh; simpl.
    + apply Qltb_lt in Hhigh. rewrite update_matching_limit.
      repeat split; try reflexivity; try discriminate.
      * intros Hnot _. exfalso. apply Hnot. split; [reflexivity | exact Hhigh].
      * intros Habsent. apply on_domain_absent, Habsent.
    + apply Qltb_ge in Hhigh.
      repeat split; try reflexivity; try discriminate.
      intros _ Hlt. exfalso. exact (Qlt_not_le _ _ Hlt Hhigh).
Qed.

End Learning.

(** ** Answer or defer *)

Lemma log_interaction_inj (e1 e2 : Interaction.t) (self : Agent.t) :
  log_interaction e1 self = log_interaction e2 self -> e1 = e2.
Proof.
  unfold log_interaction, Agent.set_interaction_history. intros Heq.
  injection Heq as Heq. apply app_inv_head in Heq. congruence.
Qed.

Section Deferral.
Context `{PactAx} `{PactHx}.

Lemma handle_after_assessment now q ctx (self : Agent.t) st :
  assess_capability q self = (inr st, self) ->
  handle now q ctx self =
  if should_defer st (Query.domain q) (Query.required_confidence q)
  then defer_arm now q ctx st self
  else answer_arm now q ctx self.
Proof.
  intros Ha. unfold handle.
  unfold mbind at 1, M_bind at 1, bind at 1. rewrite Ha.
  destruct (should_defer st _ _); reflexivity.
Qed.

Lemma defer_arm_run now q ctx st (self : Agent.t) :
  defer_arm now q ctx st self =
  let response :=
    express st ctx (Query.content q)
      (EpistemicState.get_delegate (Query.domain q) st) in
  (inr response, log_interaction (logged now q st response true) self).
Proof. reflexivity. Qed.

Lemma answer_arm_run now q ctx (self : Agent.t) :
  answer_arm now q ctx self =
  match fst (_generate_answer q ctx self) with
  | inl e => (inl e, self)
  | inr st =>
      let response := express st ctx (Query.content q) None in
      (inr response, log_interaction (logged now q st response false) self)
  end.
Proof.
  unfold answer_arm. unfold mbind at 1, M_bind at 1, bind at 1.
  pose proof (generate_answer_frame q ctx self) as Hg.
  destruct (_generate_answer q ctx self) as [[e|st] self'];
    simpl in Hg; subst self'; reflexivity.
Qed.

Lemma answer_arm_not_deferred now q ctx (self : Agent.t) response e :
  answer_arm now q ctx self = (inr response, log_interaction e self) ->
  Interaction.deferred e = false.
Proof.
  rewrite answer_arm_run.
  destruct (fst (_generate_answer q ctx self)) as [err|st]; [discriminate |].
  cbv zeta. intros Hrun. apply (f_equal snd) in Hrun. simpl in Hrun.
  apply log_interaction_inj in Hrun. subst e. reflexivity.
Qed.

(** C2. When a capability matches the query, on an agent that has one
    boundary for each capability, the pipeline defers exactly when the score
    of the assessed confidence is strictly below the required confidence.
    The assessment then has no value, an uncertainty reason and the
    delegation map of the agent, and [handle] renders and logs it as
    deferred.  Otherwise, and so when the score equals the required
    confidence, [handle] goes on to answer generation. *)
Theorem deferral_iff_below_required
    (now : Z) (q : Query.t) (ctx : ExpressionContext.t) (self : Agent.t)
    (cap : AgentCapability.t) :
  relevant_capability (Agent.capabilities self) q = Some cap ->
  boundaries_cover self ->
  let confidence := assessed_confidence (Agent.cls self) q cap in
  let score := level_value confidence in
  let required := Query.required_confidence q in
  (exists st,
      assess_capability q self = (inr st, self)
      /\ EpistemicState.confidence st = confidence
      /\ (EpistemicState.value st = None <-> (score < required)%Q)
      /\ ((score < required)%Q ->
          is_Some (EpistemicState.uncertainty_reason st)
          /\ EpistemicState.delegation_map st = Some (Agent.delegation_map self)
          /\ handle now q ctx self = defer_arm now q ctx st self))
  /\ (defers now q ctx self <-> (score < required)%Q)
  /\ (~ (score < required)%Q ->
      handle now q ctx self = answer_arm now q ctx self)
  /\ ((score == required)%Q ->
      handle now q ctx self = answer_arm now q ctx self
      /\ ~ defers now q ctx self).
Proof.
  intros Hcap Hcover. cbv zeta.
  assert (exists primary, Agent.boundaries self !! 0%nat = Some primary)
    as [primary Hprimary].
  { apply lookup_lt_is_Some. unfold boundaries_cover in Hcover. rewrite Hcover.
    destruct (Agent.capabilities self); [discriminate | simpl; lia]. }
  set (confidence := assessed_confidence (Agent.cls self) q cap).
  pose proof (assess_capability_run q self) as Ha.
  rewrite Hcap in Ha. cbv zeta in Ha. rewrite Hprimary in Ha.
  fold confidence in Ha.
  pose proof (handle_after_assessment now q ctx self _ Ha) as Hh.
  destruct (Qltb (level_value confidence) (Query.required_confidence q)) eqn:Hlt.
  - (* below the threshold *)
    assert (should_defer (deferral_state self q confidence primary)
              (Query.domain q) (Query.required_confidence q) = true) as Hsd
      by exact Hlt.
    rewrite Hsd in Hh. apply Qltb_lt in Hlt.
    split; [| split; [| split]].
    + eexists. split; [exact Ha |]. split; [reflexivity |].
      split; [split; auto |].
      intros _. split; [simpl; eauto |]. split; [reflexivity | exact Hh].
    + split; [intros _; exact Hlt |]. intros _.
      unfold defers. rewrite Hh, defer_arm_run. cbv zeta.
      eexists _, _. split; reflexivity.
    + intros Hnot. contradiction.
    + intros Heq. exfalso. rewrite Heq in Hlt. exact (Qlt_irrefl _ Hlt).
  - (* at or above the threshold *)
    assert (should_defer (can_handle_state confidence primary)
              (Query.domain q) (Query.required_confidence q) = false) as Hsd
      by exact Hlt.
    rewrite Hsd in Hh. apply Qltb_ge in Hlt.
    assert (~ defers now q ctx self) as Hnd.
    { intros [response [e [Hrun Hdef]]]. rewrite Hh in Hrun.
      apply answer_arm_not_deferred in Hrun. congruence. }
    split; [| split; [| split]].
    + eexists. split; [exact Ha |]. split; [reflexivity |].
      split.
      * split; [discriminate |].
        intros Hlt'. exfalso. exact (Qlt_not_le _ _ Hlt' Hlt).
      * intros Hlt'. exfalso. exact (Qlt_not_le _ _ Hlt' Hlt).
    + split; [intros Hd; contradiction |].
      intros Hlt'. exfalso. exact (Qlt_not_le _ _ Hlt' Hlt).
    + intros _. exact Hh.
    + intros _. split; [exact Hh | exact Hnd].
Qed.

End Deferral.

(** The customer care agent on the password query of its demo: the
    capability [account_basics] matches by domain, no key of the knowledge
    base and no topic occurs, the confidence is UNKNOWN and the agent
    defers. *)
Lemma deferral_iff_below_required_witness :
  exists self,
    CustomerCareAgent_init "care_agent_001" = inr self
    /\ @defers sample_ax sample_hx 0 password_query care_context self.
Proof.
  eexists. split; [reflexivity |].
  refine (proj2 (proj1 (proj2
    (@deferral_iff_below_required sample_ax sample_hx 0 password_query
       care_context _
       (AgentCapability.mk "account_basics"
          ["login"; "password reset"; "account info"; "profile"]
          CONFIDENT (7 # 10, 9 # 10))
       _ _))) _).
  - reflexivity.
  - reflexivity.
  - vm_compute. reflexivity.
Defined.

(** ** The confidence policies *)

Lemma can_handle_lower (c : AgentCapability.t) (s : string) :
  AgentCapability.can_handle c (Str.lower s) = AgentCapability.can_handle c s.
Proof.
  unfold AgentCapability.can_handle. rewrite lower_idem. reflexivity.
Qed.

Lemma any_in_keys (d : list (string * string)) (text : string) :
  existsb (fun key => Str.contains key text) (map fst d)
  = Str.any_in (map fst d) text.
Proof. reflexivity. Qed.

(** The override of the customer care agent is the ladder, read on the
    lower-cased content with the keys of the knowledge base and the fixed
    list of complexity indicators. *)
Lemma CustomerCareAgent_assess_confidence_ladder
    (knowledge_base : list (string * string))
    (q : Query.t) (cap : AgentCapability.t) :
  CustomerCareAgent_assess_confidence knowledge_base q cap
  = confidence_ladder (map fst knowledge_base) complexity_indicators
      (Str.lower (Query.content q)) cap.
Proof.
  unfold CustomerCareAgent_assess_confidence, confidence_ladder.
  rewrite any_in_keys, can_handle_lower.
  destruct (Str.any_in (map fst knowledge_base) _); [reflexivity |].
  destruct (AgentCapability.can_handle cap (Query.content q)); [| reflexivity].
  destruct (Str.any_in complexity_indicators _); reflexivity.
Qed.

Lemma confidence_ladder_not_confident keys complexity content cap :
  confidence_ladder keys complexity content cap <> CONFIDENT.
Proof. unfold confidence_ladder. split_match; discriminate. Qed.

(** On the breathing query of the mental health demo the base policy
    answers CONFIDENT, the proficiency of the capability; the ladder never
    answers CONFIDENT, whatever keys and indicators it is given. *)
Lemma base_assess_confidence_is_not_ladder :
  BaseAgent_assess_confidence breathing_query coping_techniques = CONFIDENT
  /\ ~ exists keys complexity,
         BaseAgent_assess_confidence breathing_query coping_techniques
         = confidence_ladder keys complexity
             (Query.content breathing_query) coping_techniques.
Proof.
  split; [reflexivity |].
  intros [keys [complexity Heq]].
  symmetry in Heq. exact (confidence_ladder_not_confident _ _ _ _ Heq).
Qed.

Section Policies.
Context `{PactAx} `{PactHx}.

(** C4, as the code has it.  The base policy returns the proficiency of
    the capability, whatever the query: every class that does not override
    it assesses so.  The four-step ladder is the override of the customer
    care agent: CERTAIN when the lower-cased content contains a key of the
    knowledge base, else LOW when the capability can handle the content
    and the lower-cased content contains a complexity indicator, else
    MODERATE when the capability can handle the content, else UNKNOWN. *)
Theorem assess_confidence_base_and_override
    (q : Query.t) (cap : AgentCapability.t) (self : Agent.t) :
  BaseAgent_assess_confidence q cap = AgentCapability.proficiency_level cap
  /\ ((forall knowledge_base,
         Agent.cls self <> CustomerCareAgent knowledge_base) ->
      _assess_confidence q cap self
      = (inr (AgentCapability.proficiency_level cap), self))
  /\ (forall knowledge_base,
        Agent.cls self = CustomerCareAgent knowledge_base ->
        let query_lower := Str.lower (Query.content q) in
        let can := AgentCapability.can_handle cap (Query.content q) in
        _assess_confidence q cap self
        = (inr (if Str.any_in (map fst knowledge_base) query_lower then CERTAIN
                else if can && Str.any_in complexity_indicators query_lower
                     then LOW
                else if can then MODERATE
                else UNKNOWN),
           self)
        /\ CustomerCareAgent_assess_confidence knowledge_base q cap
           = confidence_ladder (map fst knowledge_base) complexity_indicators
               query_lower cap).
Proof.
  split; [reflexivity |]. split.
  - intros Hcls. rewrite assess_confidence_run. unfold assessed_confidence.
    destruct (Agent.cls self) as [|kb| |]; try reflexivity.
    exfalso. exact (Hcls kb eq_refl).
  - intros kb Hcls. cbv zeta.
    rewrite assess_confidence_run, Hcls. simpl.
    rewrite CustomerCareAgent_assess_confidence_ladder.
    split; [| reflexivity].
    unfold confidence_ladder. rewrite can_handle_lower. reflexivity.
Qed.

End Policies.

(** ** An agent without an answer generator *)

(** A [BaseAgent] with one capability and no answer generator is
    constructed without an error; the error is raised by [handle], on the
    first query the agent is confident enough to answer. *)
Lemma base_agent_constructed_then_fails_in_handle :
  exists self,
    BaseAgent_init "base_001" "Base" CUSTOMER_CARE [hours_capability] = inr self
    /\ Agent.cls self = BaseAgent
    /\ Agent.capabilities self = [hours_capability]
    /\ @handle sample_ax sample_hx 0 hours_query care_context self
       = (inl (NotImplementedError "Subclasses must implement _generate_answer"),
          self).
Proof.
  eexists. split; [reflexivity |]. repeat split.
Qed.

Section NoGenerator.
Context `{PactAx} `{PactHx}.

(** C3, as the code has it.  The constructor of [BaseAgent] checks nothing:
    it returns an agent for every list of capabilities.  An agent of class
    [BaseAgent] has no answer generator, and this shows at query time only:
    [handle] raises [NotImplementedError], leaving the agent unchanged,
    exactly on the queries its assessment does not defer; on a deferred
    query it returns a response. *)
Theorem base_agent_fails_at_query_time :
  (forall agent_id name domain capabilities,
      BaseAgent_init agent_id name domain capabilities
      = inr (Agent.mk BaseAgent agent_id name domain capabilities
               (map boundary_of capabilities) DelegationMap.empty [] []))
  /\ (forall now q ctx self st,
        Agent.cls self = BaseAgent ->
        assess_capability q self = (inr st, self) ->
        (should_defer st (Query.domain q) (Query.required_confidence q) = false ->
         handle now q ctx self
         = (inl (NotImplementedError "Subclasses must implement _generate_answer"),
            self))
        /\ (should_defer st (Query.domain q) (Query.required_confidence q) = true ->
            exists response self',
              handle now q ctx self = (inr response, self'))).
Proof.
  split.
  - intros agent_id name domain capabilities. unfold BaseAgent_init.
    rewrite build_boundaries_map. reflexivity.
  - intros now q ctx self st Hcls Ha.
    rewrite (handle_after_assessment now q ctx self st Ha). split; intros ->.
    + rewrite answer_arm_run. unfold _generate_answer. run_M.
      rewrite Hcls. reflexivity.
    + rewrite defer_arm_run. cbv zeta. eauto.
Qed.

End NoGenerator.

(** ** The crisis check of the mental health agent *)

Section Crisis.
Context `{PactAx} `{PactHx}.

(** When the crisis check is reached, it decides: the answer generator of
    the mental health agent returns the crisis state on every query whose
    content triggers the detector. *)
Lemma crisis_check_first_in_generate_answer
    (q : Query.t) (ctx : ExpressionContext.t) (self : Agent.t) session_history :
  Agent.cls self = MentalHealthSupportAgent session_history ->
  fst (check_for_crisis (Query.content q)) = true ->
  _generate_answer q ctx self = (inr crisis_state, self).
Proof.
  intros Hcls Hcrisis. unfold _generate_answer. run_M. rewrite Hcls.
  unfold MentalHealthSupportAgent_generate_answer.
  destruct (check_for_crisis (Query.content q)) as [is_crisis crisis_type].
  simpl in Hcrisis. subst is_crisis. reflexivity.
Qed.

(** C1, on the crisis query of the demo of the mental health agent.  The
    content triggers the detector and the answer generator would return
    the crisis state; but [handle] assesses the capabilities first, finds
    none for the domain [crisis], and defers on the unknown state, of
    confidence UNKNOWN, without running the crisis check.  The same
    content sent to the domain [general_wellness] matches a capability of
    proficiency MODERATE and is deferred on a state of confidence MODERATE
    with no source. *)
Theorem crisis_query_deferred_before_safety_check
    (now : Z) (ctx : ExpressionContext.t) (agent_id : string) (self : Agent.t) :
  MentalHealthSupportAgent_init agent_id = inr self ->
  fst (check_for_crisis crisis_content) = true ->
  (level_value UNKNOWN < 9 # 10)%Q ->
  (level_value MODERATE < 9 # 10)%Q ->
  _generate_answer crisis_query ctx self = (inr crisis_state, self)
  /\ handle now crisis_query ctx self
     = defer_arm now crisis_query ctx (unknown_state self crisis_query) self
  /\ EpistemicState.confidence (unknown_state self crisis_query) = UNKNOWN
  /\ defers now crisis_query ctx self
  /\ (exists st,
        handle now wellness_crisis_query ctx self
        = defer_arm now wellness_crisis_query ctx st self
        /\ EpistemicState.confidence st = MODERATE
        /\ EpistemicState.source st = None
        /\ defers now wellness_crisis_query ctx self).
Proof.
  intros Hinit Hcrisis Hunknown Hmoderate.
  injection Hinit as <-.
  apply Qltb_lt in Hunknown.
  match goal with
  | |- context [handle now crisis_query ctx ?a] =>
      assert (assess_capability crisis_query a
              = (inr (unknown_state a crisis_query), a)) as Hu
        by (rewrite assess_capability_run; reflexivity);
      assert (should_defer (unknown_state a crisis_query)
                (Query.domain crisis_query)
                (Query.required_confidence crisis_query) = true) as Hsd
        by (unfold should_defer, unknown_state;
            rewrite to_epistemic_state_confidence; exact Hunknown)
  end.
  split; [| split; [| split; [| split]]].
  - eapply crisis_check_first_in_generate_answer; [reflexivity | exact Hcrisis].
  - rewrite (handle_after_assessment _ _ _ _ _ Hu), Hsd. reflexivity.
  - apply to_epistemic_state_confidence.
  - unfold defers.
    rewrite (handle_after_assessment _ _ _ _ _ Hu), Hsd.
    rewrite defer_arm_run. cbv zeta. eexists _, _. split; reflexivity.
  - apply Qltb_lt in Hmoderate.
    match goal with
    | |- context [handle now ?q ctx ?a] =>
        assert (assess_capability q a
                = (inr (deferral_state a q MODERATE
                          (boundary_of
                             (AgentCapability.mk "general_wellness"
                                ["stress"; "sleep"; "exercise"; "routine"; "self-care"]
                                MODERATE (5 # 10, 7 # 10)))), a)) as Ha
    end.
    { rewrite assess_capability_run. simpl.
      unfold BaseAgent_assess_confidence. simpl. rewrite Hmoderate. reflexivity. }
    eexists. rewrite (handle_after_assessment _ _ _ _ _ Ha).
    unfold should_defer, defers. simpl. rewrite Hmoderate.
    split; [reflexivity |]. split; [reflexivity |]. split; [reflexivity |].
    rewrite (handle_after_assessment _ _ _ _ _ Ha).
    unfold should_defer. simpl. rewrite Hmoderate.
    rewrite defer_arm_run. cbv zeta. eexists _, _. split; reflexivity.
Qed.

End Crisis.

(** The sample detector triggers on the crisis content and the sample
    scores of UNKNOWN and MODERATE are below 0.9. *)
Lemma crisis_query_deferred_before_safety_check_witness :
  exists self,
    MentalHealthSupportAgent_init "mh_support_001" = inr self
    /\ @defers sample_ax sample_hx 0 crisis_query clinical_context self
    /\ @_generate_answer sample_ax sample_hx crisis_query clinical_context self
       = (inr (@crisis_state sample_hx), self).
Proof.
  eexists. split; [reflexivity |].
  pose proof (@crisis_query_deferred_before_safety_check sample_ax sample_hx
                0 clinical_context "mh_support_001" _
                eq_refl eq_refl eq_refl eq_refl) as Hthm.
  split; [exact (proj1 (proj2 (proj2 (proj2 Hthm)))) | exact (proj1 Hthm)].
Defined.

(** ** The invariant of the epistemic states *)

Ltac solve_invariant :=
  split;
  [ intros [Hvalue | Hconfidence]; simpl in *;
    first [ discriminate | solve [eauto] ]
  | intros (Hvalue & Hconfidence & Hreason); simpl in *;
    first [ discriminate | congruence | solve [eauto] ] ].

Section Invariant.
Context `{PactAx} `{PactHx}.

Lemma unknown_response_invariant (u : UnknownResponse.t) :
  state_invariant (to_epistemic_state u).
Proof.
  split.
  - intros _. rewrite to_epistemic_state_reason. eauto.
  - intros (_ & _ & Hreason).
    rewrite to_epistemic_state_reason in Hreason. discriminate.
Qed.

Ltac generated_invariant :=
  run_M; split_match;
  try discriminate;
  intros st Hst; simpl in Hst; injection Hst as <-;
  first [ apply unknown_response_invariant | solve_invariant ].

Lemma CustomerCareAgent_generate_answer_invariant kb q ctx (self : Agent.t) :
  forall st,
    fst (CustomerCareAgent_generate_answer kb q ctx self) = inr st ->
    state_invariant st.
Proof. unfold CustomerCareAgent_generate_answer. generated_invariant. Qed.

Lemma MentalHealthSupportAgent_generate_answer_invariant sh q ctx (self : Agent.t) :
  forall st,
    fst (MentalHealthSupportAgent_generate_answer sh q ctx self) = inr st ->
    state_invariant st.
Proof. unfold MentalHealthSupportAgent_generate_answer. generated_invariant. Qed.

Lemma VoiceAIAssistant_generate_answer_invariant kn q ctx (self : Agent.t) :
  forall st,
    fst (VoiceAIAssistant_generate_answer kn q ctx self) = inr st ->
    state_invariant st.
Proof. unfold VoiceAIAssistant_generate_answer. generated_invariant. Qed.

Lemma generate_answer_invariant q ctx (self : Agent.t) st :
  fst (_generate_answer q ctx self) = inr st -> state_invariant st.
Proof.
  unfold _generate_answer.
  unfold mbind at 1, M_bind at 1, bind at 1, gets at 1.
  destruct (Agent.cls self).
  - discriminate.
  - apply CustomerCareAgent_generate_answer_invariant.
  - apply MentalHealthSupportAgent_generate_answer_invariant.
  - apply VoiceAIAssistant_generate_answer_invariant.
Qed.

End Invariant.

(** The customer care agent on the opening-hours query of its demo: the
    assessment is CERTAIN, above the required confidence, and the state
    [assess_capability] returns has a value, no uncertainty reason and no
    source. *)
Lemma can_handle_assessment_without_source :
  exists self st,
    CustomerCareAgent_init "care_agent_001" = inr self
    /\ @assess_capability sample_ax sample_hx hours_query self = (inr st, self)
    /\ firm_answer st
    /\ EpistemicState.source st = None
    /\ ~ state_invariant st.
Proof.
  eexists _,
    (can_handle_state CERTAIN
       (boundary_of
          (AgentCapability.mk "general_inquiries"
             ["hours"; "location"; "contact"; "general questions"]
             CONFIDENT (8 # 10, 95 # 100)))).
  split; [reflexivity |].
  split; [rewrite assess_capability_run; reflexivity |].
  assert (firm_answer
            (can_handle_state CERTAIN
               (boundary_of
                  (AgentCapability.mk "general_inquiries"
                     ["hours"; "location"; "contact"; "general questions"]
                     CONFIDENT (8 # 10, 95 # 100))))) as Hfirm.
  { split; [simpl; eauto |]. split; [discriminate | reflexivity]. }
  split; [exact Hfirm |]. split; [reflexivity |].
  intros [_ Hsource]. destruct (Hsource Hfirm) as [src Hsrc]. discriminate.
Qed.

Section PipelineInvariant.
Context `{PactAx} `{PactHx}.

Lemma terminal_state_invariant q ctx (self : Agent.t) st deferred delegate_to :
  fst (terminal_state q ctx self) = inr (st, deferred, delegate_to) ->
  state_invariant st.
Proof.
  unfold terminal_state. unfold mbind at 1, M_bind at 1, bind at 1.
  rewrite assess_capability_run.
  assert (forall st0,
             (should_defer st0 (Query.domain q) (Query.required_confidence q) = true ->
              state_invariant st0) ->
             fst ((if should_defer st0 (Query.domain q) (Query.required_confidence q)
                   then mret (st0, true,
                              EpistemicState.get_delegate (Query.domain q) st0)
                   else answer_state ← _generate_answer q ctx;
                        mret (answer_state, false, None)) self)
             = inr (st, deferred, delegate_to) ->
             state_invariant st) as Hstep.
  { intros st0 Hdefer.
    destruct (should_defer st0 _ _).
    - intros [= <- _ _]. auto.
    - unfold mbind, M_bind, bind.
      destruct (_generate_answer q ctx self) as [[e|st'] self'] eqn:Hg;
        [discriminate |].
      intros [= <- _ _]. apply (generate_answer_invariant q ctx self).
      rewrite Hg. reflexivity. }
  destruct (relevant_capability (Agent.capabilities self) q) as [cap|].
  - cbv zeta. destruct (Agent.boundaries self !! 0%nat) as [primary|];
      [| discriminate].
    apply Hstep.
    destruct (Qltb _ _) eqn:Hlt.
    + intros _. solve_invariant.
    + unfold should_defer, can_handle_state. simpl. congruence.
  - apply Hstep. intros _. apply unknown_response_invariant.
Qed.

(** C9, as the code has it.  A state of [assess_capability] without a
    value carries an uncertainty reason.  Every state an answer generator
    returns, and every state [handle] renders and logs, satisfies the
    invariant: a state that does not know carries an uncertainty reason
    and a firm answer carries a source.  The state [assess_capability]
    returns when the confidence suffices is outside the invariant: its
    value is the marker [can_handle], and it has neither an uncertainty
    reason nor a source. *)
Theorem epistemic_states_of_the_pipeline :
  (forall q self st,
      fst (assess_capability q self) = inr st ->
      EpistemicState.value st = None ->
      is_Some (EpistemicState.uncertainty_reason st))
  /\ (forall q ctx self st,
        fst (_generate_answer q ctx self) = inr st -> state_invariant st)
  /\ (forall q ctx self st deferred delegate_to,
        fst (terminal_state q ctx self) = inr (st, deferred, delegate_to) ->
        state_invariant st)
  /\ (forall now q ctx self,
        handle now q ctx self =
        match fst (terminal_state q ctx self) with
        | inl e => (inl e, self)
        | inr (st, deferred, delegate_to) =>
            let response := express st ctx (Query.content q) delegate_to in
            (inr response,
             log_interaction (logged now q st response deferred) self)
        end)
  /\ (forall confidence primary,
        let st := can_handle_state confidence primary in
        EpistemicState.value st = Some "can_handle"
        /\ EpistemicState.uncertainty_reason st = None
        /\ EpistemicState.source st = None
        /\ (confidence <> UNKNOWN -> firm_answer st /\ ~ state_invariant st)).
Proof.
  split; [| split; [| split; [| split]]].
  - intros q self st. rewrite assess_capability_run.
    destruct (relevant_capability (Agent.capabilities self) q) as [cap|].
    + cbv zeta. destruct (Agent.boundaries self !! 0%nat) as [primary|];
        [| discriminate].
      destruct (Qltb _ _); intros [= <-]; simpl; [eauto | discriminate].
    + intros [= <-] _. unfold unknown_state.
      rewrite to_epistemic_state_reason. eauto.
  - intros q ctx self st. apply generate_answer_invariant.
  - intros q ctx self st deferred delegate_to. apply terminal_state_invariant.
  - intros now q ctx self. apply handle_run.
  - intros confidence primary. cbv zeta. repeat split; simpl; eauto.
    intros [_ Hsource].
    assert (firm_answer (can_handle_state confidence primary)) as Hfirm
      by (repeat split; simpl; eauto).
    destruct (Hsource Hfirm) as [src Hsrc]. discriminate.
Qed.

End PipelineInvariant.

(** * Further properties of the code *)

(** ** More on the topic predicate *)

Lemma app_string_assoc (a b c : string) : (a +:+ b) +:+ c = a +:+ (b +:+ c).
Proof.
  induction a as [|x a IH]; [reflexivity |].
  rewrite !app_String, IH. reflexivity.
Qed.

Lemma substring_of_empty (s : string) : Str.substring_of "" s.
Proof. exists "", s. reflexivity. Qed.

Lemma substring_of_trans (a b c : string) :
  Str.substring_of a b -> Str.substring_of b c -> Str.substring_of a c.
Proof.
  intros [pre1 [post1 ->]] [pre2 [post2 ->]].
  exists (pre2 +:+ pre1), (post1 +:+ post2).
  rewrite !app_string_assoc. reflexivity.
Qed.

Lemma contains_trans (a b c : string) :
  Str.contains a b = true -> Str.contains b c = true -> Str.contains a c = true.
Proof.
  rewrite !contains_substring. apply substring_of_trans.
Qed.

Section TopicEdges.
Context `{Unicode.Lowering}.

(** X1. The edge cases of [can_handle]: the empty string is handled as soon
    as one topic is declared; a capability without topics handles nothing;
    every declared topic is handled, and an ASCII topic in any case of its
    letters; and every part of a handled ASCII string is handled. *)
Theorem can_handle_edges (c : Unicode.AgentCapability.t) :
  (Unicode.AgentCapability.can_handle c [] = true <->
   Unicode.AgentCapability.topics c <> [])
  /\ (Unicode.AgentCapability.topics c = [] ->
      forall s, Unicode.AgentCapability.can_handle c s = false)
  /\ (forall t,
        In t (Unicode.AgentCapability.topics c) ->
        Unicode.AgentCapability.can_handle c t = true)
  /\ (forall t s,
        In t (Unicode.AgentCapability.topics c) ->
        Unicode.is_ascii t = true ->
        Unicode.case_variant t s ->
        Unicode.AgentCapability.can_handle c s = true)
  /\ (forall s s',
        Unicode.is_ascii s' = true ->
        Unicode.substring_of s s' ->
        Unicode.AgentCapability.can_handle c s' = true ->
        Unicode.AgentCapability.can_handle c s = true).
Proof.
  assert (forall t, In t (Unicode.AgentCapability.topics c) ->
                    Unicode.AgentCapability.can_handle c t = true) as Htopic.
  { intros t Hin. apply unicode_can_handle_iff. exists t.
    split; [exact Hin |]. exists [], []. rewrite app_nil_r. reflexivity. }
  split; [| split; [| split; [| split]]].
  - rewrite unicode_can_handle_iff. split.
    + intros [t [Hin _]] Hnil. rewrite Hnil in Hin. contradiction.
    + destruct (Unicode.AgentCapability.topics c) as [|t ts]; [congruence |].
      intros _. exists t. split; [left; reflexivity |].
      rewrite (Unicode.lower_on_ascii [] eq_refl). exists [], (Unicode.lower t).
      reflexivity.
  - intros Hnil s. unfold Unicode.AgentCapability.can_handle.
    rewrite Hnil. reflexivity.
  - exact Htopic.
  - intros t s Hin Hascii Hcase.
    rewrite <- (Htopic t Hin). unfold Unicode.AgentCapability.can_handle.
    rewrite (Unicode.lower_on_ascii t Hascii).
    rewrite (Unicode.lower_on_ascii s (case_variant_ascii t s Hcase Hascii)).
    rewrite (case_variant_lower t s Hcase). reflexivity.
  - intros s s' Hascii Hsub Hs'. apply unicode_can_handle_iff in Hs'.
    destruct Hs' as [t [Hin Ht]]. apply unicode_can_handle_iff. exists t.
    split; [exact Hin |].
    eapply unicode_substring_trans; [| exact Ht].
    rewrite (Unicode.lower_on_ascii s' Hascii).
    rewrite (Unicode.lower_on_ascii s (unicode_substring_ascii s s' Hsub Hascii)).
    apply unicode_substring_map, Hsub.
Qed.

End TopicEdges.

(** ** When the assessment raises *)

Section AssessmentErrors.
Context `{PactAx} `{PactHx}.

(** X2. [assess_capability] raises exactly when a capability matches the
    query and the agent has no boundary at all; the exception is then
    [IndexError], from [self.boundaries[0]].  An agent without capabilities
    never raises: every query gets the unknown state. *)
Theorem assess_capability_raises_iff (q : Query.t) (self : Agent.t) :
  (forall e, fst (assess_capability q self) = inl e -> e = IndexError)
  /\ ((exists e, fst (assess_capability q self) = inl e) <->
      (exists cap, relevant_capability (Agent.capabilities self) q = Some cap)
      /\ Agent.boundaries self = [])
  /\ (Agent.capabilities self = [] ->
      assess_capability q self = (inr (unknown_state self q), self)).
Proof.
  rewrite assess_capability_run. split; [| split].
  - intros e.
    destruct (relevant_capability (Agent.capabilities self) q); [| discriminate].
    cbv zeta. destruct (Agent.boundaries self !! 0%nat); [discriminate |].
    simpl. congruence.
  - destruct (relevant_capability (Agent.capabilities self) q) as [cap|].
    + cbv zeta. destruct (Agent.boundaries self) as [|b bs] eqn:Hb; simpl.
      * split; eauto.
      * split; [intros [e He]; discriminate | intros [_ Hnil]; discriminate].
    + split; [intros [e He]; discriminate | intros [[cap Hcap] _]; discriminate].
  - intros Hnil. rewrite Hnil. reflexivity.
Qed.

End AssessmentErrors.

(** ** The logs only grow *)

Lemma logs_extend_refl (self : Agent.t) : logs_extend self self.
Proof. split; reflexivity. Qed.

Lemma logs_extend_trans (a b c : Agent.t) :
  logs_extend a b -> logs_extend b c -> logs_extend a c.
Proof. intros [H1 H2] [H3 H4]. split; etransitivity; eassumption. Qed.

Lemma logs_extend_log_interaction (e : Interaction.t) (self : Agent.t) :
  logs_extend self (log_interaction e self).
Proof. split; simpl; [apply prefix_app_r |]; reflexivity. Qed.

Section Logs.
Context `{PactAx} `{PactHx}.

Lemma handle_logs_extend now q ctx (self : Agent.t) :
  logs_extend self (snd (handle now q ctx self)).
Proof.
  pose proof (handle_frame now q ctx self) as Hh.
  destruct (handle now q ctx self) as [[e|r] self']; simpl.
  - subst. apply logs_extend_refl.
  - destruct Hh as [e ->]. apply logs_extend_log_interaction.
Qed.

Lemma learn_logs_extend now q st outcome feedback (self : Agent.t) :
  logs_extend self (snd (learn_from_outcome now q st outcome feedback self)).
Proof.
  rewrite learn_from_outcome_run. cbv zeta. simpl.
  destruct (negb outcome && Qltb (6 # 10) _);
    destruct (outcome && Qltb _ (1 # 2)); (split; simpl;
      [reflexivity | apply prefix_app_r; reflexivity]).
Qed.

(** X3. The interaction history and the learning log are append-only:
    after [assess_capability], [handle], [learn_from_outcome] or a new
    delegation, each log starts with what it held before.  [handle] leaves
    the learning log as it is; [learn_from_outcome] leaves the interaction
    history as it is and adds one event to the learning log. *)
Theorem logs_are_append_only (self : Agent.t) :
  (forall q, logs_extend self (snd (assess_capability q self)))
  /\ (forall now q ctx,
        logs_extend self (snd (handle now q ctx self))
        /\ Agent.learning_log (snd (handle now q ctx self))
           = Agent.learning_log self)
  /\ (forall now q st outcome feedback,
        let self' := snd (learn_from_outcome now q st outcome feedback self) in
        logs_extend self self'
        /\ Agent.interaction_history self' = Agent.interaction_history self
        /\ length (Agent.learning_log self')
           = S (length (Agent.learning_log self)))
  /\ (forall domain delegate_id reason,
        logs_extend self (add_delegation domain delegate_id reason self)).
Proof.
  split; [| split; [| split]].
  - intros q. rewrite assess_capability_frame. apply logs_extend_refl.
  - intros now q ctx. split; [apply handle_logs_extend |].
    pose proof (handle_frame now q ctx self) as Hh.
    destruct (handle now q ctx self) as [[e|r] self']; simpl.
    + subst. reflexivity.
    + destruct Hh as [e ->]. reflexivity.
  - intros now q st outcome feedback. cbv zeta.
    split; [apply learn_logs_extend |].
    rewrite learn_from_outcome_run. cbv zeta. simpl.
    destruct (negb outcome && Qltb (6 # 10) _);
      destruct (outcome && Qltb _ (1 # 2)); simpl;
      rewrite length_app; simpl; split; (reflexivity || lia).
  - intros domain delegate_id reason. split; reflexivity.
Qed.

End Logs.

(** ** The agents of the three subclasses never raise *)

Lemma as_constructed_same (a b : Agent.t) :
  Agent.cls b = Agent.cls a ->
  Agent.capabilities b = Agent.capabilities a ->
  as_constructed a -> as_constructed b.
Proof.
  unfold as_constructed. intros -> ->. trivial.
Qed.

Section Returns.
Context `{PactAx} `{PactHx}.

Lemma reachable_as_constructed (self : Agent.t) :
  reachable self -> as_constructed self.
Proof.
  induction 1 as
    [agent_id name domain capabilities self Hinit
    |agent_id self Hinit |agent_id self Hinit |agent_id self Hinit
    |domain delegate_id reason self _ IH
    |query self _ IH
    |now query context self _ IH
    |now query st outcome feedback self _ IH].
  - injection Hinit as <-. exact I.
  - injection Hinit as <-. split; reflexivity.
  - injection Hinit as <-. split; reflexivity.
  - injection Hinit as <-. split; reflexivity.
  - exact IH.
  - rewrite assess_capability_frame. exact IH.
  - pose proof (handle_frame now query context self) as Hh.
    destruct (handle now query context self) as [[e|r] self']; simpl.
    + subst. exact IH.
    + destruct Hh as [e ->]. exact IH.
  - rewrite learn_from_outcome_run. cbv zeta. simpl.
    destruct (negb outcome && Qltb (6 # 10) _);
      destruct (outcome && Qltb _ (1 # 2)); exact IH.
Qed.

Lemma CustomerCareAgent_generate_answer_returns kb q ctx (self : Agent.t) primary :
  Agent.boundaries self !! 0%nat = Some primary ->
  exists st, CustomerCareAgent_generate_answer kb q ctx self = (inr st, self).
Proof.
  intros Hp. unfold CustomerCareAgent_generate_answer.
  destruct (Agent.boundaries self) as [|b bs] eqn:Hb; [discriminate |].
  run_M. destruct (first_key_in kb _) as [[key value]|]; simpl.
  - rewrite Hb. simpl. eauto.
  - split_match; eauto.
Qed.

Lemma MentalHealthSupportAgent_generate_answer_returns sh q ctx (self : Agent.t) :
  exists st, MentalHealthSupportAgent_generate_answer sh q ctx self = (inr st, self).
Proof.
  unfold MentalHealthSupportAgent_generate_answer. run_M. split_match; eauto.
Qed.

Lemma VoiceAIAssistant_generate_answer_returns q ctx (self : Agent.t) :
  exists st,
    VoiceAIAssistant_generate_answer VoiceAIAssistant_knowledge q ctx self
    = (inr st, self).
Proof.
  unfold VoiceAIAssistant_generate_answer. run_M. split_match; eauto.
Qed.

Lemma subclass_has_primary (self : Agent.t) :
  reachable self -> is_subclass self ->
  exists primary, Agent.boundaries self !! 0%nat = Some primary.
Proof.
  intros Hr Hsub. apply lookup_lt_is_Some.
  pose proof (reachable_cover self Hr) as Hc. unfold boundaries_cover in Hc.
  pose proof (reachable_as_constructed self Hr) as Ha.
  unfold as_constructed, is_subclass in *. rewrite Hc.
  destruct (Agent.cls self); [contradiction | | |];
    destruct Ha as [_ ->]; simpl; lia.
Qed.

Lemma subclass_generate_answer_returns q ctx (self : Agent.t) :
  reachable self -> is_subclass self ->
  exists st, _generate_answer q ctx self = (inr st, self).
Proof.
  intros Hr Hsub.
  destruct (subclass_has_primary self Hr Hsub) as [primary Hp].
  pose proof (reachable_as_constructed self Hr) as Ha.
  unfold _generate_answer. unfold mbind at 1, M_bind at 1, bind at 1, gets at 1.
  unfold as_constructed, is_subclass in *.
  destruct (Agent.cls self) as [|kb|sh|kn]; [contradiction | | |].
  - eapply CustomerCareAgent_generate_answer_returns, Hp.
  - apply MentalHealthSupportAgent_generate_answer_returns.
  - destruct Ha as [-> _]. apply VoiceAIAssistant_generate_answer_returns.
Qed.

Lemma subclass_handle_returns
    (now : Z) (q : Query.t) (ctx : ExpressionContext.t) (self : Agent.t) :
  reachable self ->
  is_subclass self ->
  exists response e,
    handle now q ctx self = (inr response, log_interaction e self)
    /\ Interaction.query e = Query.content q
    /\ Interaction.domain e = Query.domain q
    /\ Interaction.timestamp e = now
    /\ Interaction.response_message e = Response.message response.
Proof.
  intros Hr Hsub.
  destruct (subclass_has_primary self Hr Hsub) as [primary Hp].
  destruct (subclass_generate_answer_returns q ctx self Hr Hsub) as [ans Hans].
  assert (exists st, assess_capability q self = (inr st, self)) as [st Hst].
  { rewrite assess_capability_run.
    destruct (relevant_capability (Agent.capabilities self) q); [| eauto].
    cbv zeta. rewrite Hp. eauto. }
  rewrite (handle_after_assessment now q ctx self st Hst).
  destruct (should_defer st _ _).
  - rewrite defer_arm_run. cbv zeta. eexists _, _. repeat split.
  - rewrite answer_arm_run, Hans. cbv zeta. simpl. eexists _, _. repeat split.
Qed.

(** X4. An agent built by the constructor of one of the three subclasses
    and used through its methods never raises in [handle]: every query gets
    a response, and exactly one interaction is logged for it, with the
    content and the domain of the query; the agent it leaves is again such
    an agent. *)
Theorem handle_returns_for_subclasses
    (now : Z) (q : Query.t) (ctx : ExpressionContext.t) (self : Agent.t) :
  reachable self ->
  is_subclass self ->
  exists response e,
    handle now q ctx self = (inr response, log_interaction e self)
    /\ Interaction.query e = Query.content q
    /\ Interaction.domain e = Query.domain q
    /\ Interaction.timestamp e = now
    /\ Interaction.response_message e = Response.message response
    /\ reachable (log_interaction e self)
    /\ is_subclass (log_interaction e self).
Proof.
  intros Hr Hsub.
  destruct (subclass_handle_returns now q ctx self Hr Hsub)
    as (response & e & Hrun & Hq & Hd & Ht & Hm).
  exists response, e.
  pose proof (reach_handle now q ctx self Hr) as Hnext.
  rewrite Hrun in Hnext. simpl in Hnext.
  repeat split; assumption.
Qed.

End Returns.

(** The voice assistant as constructed, on the capital query of its demo. *)
Lemma handle_returns_for_subclasses_witness :
  exists self response e,
    VoiceAIAssistant_init "voice_001" = inr self
    /\ @handle sample_ax sample_hx 0
         (Query.mk "What's the capital of France?" "general_knowledge" (7 # 10))
         voice_context self
       = (inr response, log_interaction e self)
    /\ Interaction.query e = "What's the capital of France?".
Proof.
  eexists.
  destruct (@handle_returns_for_subclasses sample_ax sample_hx 0
              (Query.mk "What's the capital of France?" "general_knowledge" (7 # 10))
              voice_context _
              (@reach_voice sample_ax sample_hx "voice_001" _ eq_refl)
              ltac:(discriminate))
    as [response [e [Hrun [Hq _]]]].
  exists response, e. split; [reflexivity |]. split; [exact Hrun | exact Hq].
Defined.

(** ** Branches the customer care agent never takes *)

Lemma first_can_handle_some caps content cap :
  first_can_handle caps content = Some cap ->
  In cap caps /\ AgentCapability.can_handle cap content = true.
Proof.
  induction caps as [|c caps IH]; simpl; [discriminate |].
  destruct (AgentCapability.can_handle c content) eqn:Hc.
  - intros [= <-]. auto.
  - intros Hrest. destruct (IH Hrest). auto.
Qed.

Lemma relevant_capability_in caps q cap :
  relevant_capability caps q = Some cap -> In cap caps.
Proof.
  intros Hcap. apply relevant_capability_some in Hcap.
  destruct Hcap as [before [after [-> _]]]. apply in_or_app. right. left.
  reflexivity.
Qed.

(** No topic of the customer care agent contains a complexity indicator or
    the word [error]; so a content one of its capabilities can handle, being
    part of a topic, contains none either. *)
Lemma care_topics_exclude (cap : AgentCapability.t) (content w : string) :
  In cap CustomerCareAgent_capabilities ->
  In w ("error" :: complexity_indicators) ->
  AgentCapability.can_handle cap content = true ->
  Str.contains w (Str.lower content) = false.
Proof.
  intros Hcap Hw Hcan.
  destruct (Str.contains w (Str.lower content)) eqn:Hin; [exfalso | reflexivity].
  apply can_handle_iff in Hcan. destruct Hcan as [t [Ht Hsub]].
  apply contains_substring in Hsub.
  pose proof (contains_trans _ _ _ Hin Hsub) as Habs.
  clear Hin Hsub.
  simpl in Hcap.
  destruct Hcap as [<- | [<- | [<- | []]]]; simpl in Ht;
    repeat (destruct Ht as [<- | Ht]; [| try contradiction]);
    simpl in Hw;
    repeat (destruct Hw as [<- | Hw]; [vm_compute in Habs; discriminate |]);
    try contradiction.
Qed.

Section CareBranches.
Context `{PactAx} `{PactHx}.

(** X5. The customer care agent, as its constructor declares it, never
    reports the confidence LOW: no content that one of its capabilities can
    handle contains a complexity indicator, [refund], [technical] or
    [error], so the LOW step of its confidence policy and the refund and
    technical answers of its generator are never taken.  Its assessments and
    its answers are CERTAIN, MODERATE or UNKNOWN. *)
Theorem customer_care_never_low (self : Agent.t) knowledge_base :
  reachable self ->
  Agent.cls self = CustomerCareAgent knowledge_base ->
  (forall q cap,
      In cap (Agent.capabilities self) ->
      fst (_assess_confidence q cap self) <> inr LOW)
  /\ (forall q st,
        fst (assess_capability q self) = inr st ->
        EpistemicState.confidence st <> LOW
        /\ EpistemicState.confidence st <> CONFIDENT)
  /\ (forall q ctx st,
        fst (_generate_answer q ctx self) = inr st ->
        EpistemicState.confidence st = CERTAIN
        \/ EpistemicState.confidence st = MODERATE
        \/ EpistemicState.confidence st = UNKNOWN).
Proof.
  intros Hr Hcls.
  pose proof (reachable_as_constructed self Hr) as Ha.
  unfold as_constructed in Ha. rewrite Hcls in Ha. destruct Ha as [_ Hcaps].
  assert (forall q cap,
             In cap (Agent.capabilities self) ->
             assessed_confidence (Agent.cls self) q cap <> LOW
             /\ assessed_confidence (Agent.cls self) q cap <> CONFIDENT)
    as Hassessed.
  { intros q cap Hin. rewrite Hcls. simpl.
    unfold CustomerCareAgent_assess_confidence.
    destruct (existsb _ _); [split; discriminate |].
    destruct (AgentCapability.can_handle cap (Query.content q)) eqn:Hcan;
      [| split; discriminate].
    assert (Str.any_in complexity_indicators (Str.lower (Query.content q)) = false)
      as ->; [| split; discriminate].
    rewrite Hcaps in Hin.
    unfold Str.any_in. apply not_true_is_false. intros Hex.
    apply existsb_exists in Hex. destruct Hex as [w [Hw Hc]].
    rewrite (care_topics_exclude cap _ w Hin (or_intror Hw) Hcan) in Hc.
    discriminate. }
  split; [| split].
  - intros q cap Hin. rewrite assess_confidence_run. simpl.
    intros [= Heq]. exact (proj1 (Hassessed q cap Hin) Heq).
  - intros q st. rewrite assess_capability_run.
    destruct (relevant_capability (Agent.capabilities self) q) as [cap|] eqn:Hcap.
    + cbv zeta. destruct (Agent.boundaries self !! 0%nat); [| discriminate].
      apply relevant_capability_in in Hcap.
      destruct (Qltb _ _); intros [= <-]; simpl; apply Hassessed, Hcap.
    + intros [= <-]. unfold unknown_state.
      rewrite to_epistemic_state_confidence. split; discriminate.
  - intros q ctx st. unfold _generate_answer.
    unfold mbind at 1, M_bind at 1, bind at 1, gets at 1. rewrite Hcls.
    unfold CustomerCareAgent_generate_answer. run_M.
    destruct (first_key_in _ _) as [[key value]|]; simpl.
    + destruct (Agent.boundaries self !! 0%nat); simpl; [| discriminate].
      intros [= <-]. auto.
    + destruct (first_can_handle _ _) as [cap|] eqn:Hfirst.
      * apply first_can_handle_some in Hfirst. destruct Hfirst as [Hin Hcan].
        rewrite Hcaps in Hin.
        rewrite (care_topics_exclude cap _ "refund" Hin) by (simpl; auto 10).
        rewrite (care_topics_exclude cap _ "technical" Hin) by (simpl; auto 10).
        rewrite (care_topics_exclude cap _ "error" Hin) by (simpl; auto 10).
        rewrite andb_false_r. simpl. intros [= <-]. auto.
      * simpl. intros [= <-]. rewrite to_epistemic_state_confidence. auto.
Qed.

End CareBranches.

Lemma customer_care_never_low_witness :
  exists self,
    CustomerCareAgent_init "care_agent_001" = inr self
    /\ forall q st,
         fst (@assess_capability sample_ax sample_hx q self) = inr st ->
         EpistemicState.confidence st <> LOW.
Proof.
  eexists. split; [reflexivity |]. intros q st Hst.
  exact (proj1 (proj1 (proj2
    (@customer_care_never_low sample_ax sample_hx _ _
       (@reach_customer_care sample_ax sample_hx "care_agent_001" _ eq_refl)
       eq_refl)) q st Hst)).
Defined.

(** ** The knowledge base of the customer care agent *)

Lemma first_key_in_some (d : list (string * string)) (text key value : string) :
  first_key_in d text = Some (key, value) <->
  exists before after,
    d = before ++ (key, value) :: after
    /\ Forall (fun entry => Str.contains (fst entry) text = false) before
    /\ Str.contains key text = true.
Proof.
  induction d as [|[k v] d IH]; simpl.
  - split; [discriminate |].
    intros [before [after [Heq _]]]. destruct before; discriminate.
  - destruct (Str.contains k text) eqn:Hk.
    + split.
      * intros [= <- <-]. exists [], d. auto.
      * intros [before [after [Heq [Hbefore Hkey]]]].
        destruct before as [|b before]; simpl in Heq.
        -- congruence.
        -- injection Heq as <- _. inversion Hbefore; simpl in *; congruence.
    + rewrite IH. split.
      * intros [before [after [-> [Hbefore Hkey]]]].
        exists ((k, v) :: before), after. auto.
      * intros [before [after [Heq [Hbefore Hkey]]]].
        destruct before as [|b before]; simpl in Heq.
        -- congruence.
        -- injection Heq as <- ->. inversion Hbefore; subst. eauto.
Qed.

Lemma first_key_in_any (d : list (string * string)) (text : string) :
  is_Some (first_key_in d text) <-> Str.any_in (map fst d) text = true.
Proof.
  unfold Str.any_in. induction d as [|[k v] d IH]; simpl.
  - split; [intros [x Hx]; discriminate | discriminate].
  - destruct (Str.contains k text); simpl; [split; eauto | exact IH].
Qed.

Section KnowledgeBase.
Context `{PactAx} `{PactHx}.

(** X6. The customer care agent answers from its knowledge base exactly
    when its policy assessed CERTAIN: when the lower-cased content contains
    a key.  The answer is then the value of the first such key in the order
    of the knowledge base, with confidence CERTAIN and the source
    [knowledge_base]; it needs [boundaries[0]], and raises [IndexError]
    without it.  Every other answer of this agent is below CERTAIN. *)
Theorem customer_care_certain_on_knowledge_base
    knowledge_base (q : Query.t) (ctx : ExpressionContext.t) (self : Agent.t) :
  Agent.cls self = CustomerCareAgent knowledge_base ->
  let query_lower := Str.lower (Query.content q) in
  (forall cap,
      _assess_confidence q cap self = (inr CERTAIN, self) <->
      is_Some (first_key_in knowledge_base query_lower))
  /\ (forall key value,
        first_key_in knowledge_base query_lower = Some (key, value) ->
        (exists before after,
            knowledge_base = before ++ (key, value) :: after
            /\ Forall (fun entry => Str.contains (fst entry) query_lower = false)
                      before
            /\ Str.contains key query_lower = true)
        /\ _generate_answer q ctx self =
           match Agent.boundaries self !! 0%nat with
           | Some primary =>
               (inr (EpistemicState.mk (Some value) CERTAIN None
                       (Some primary) None (Some "knowledge_base")), self)
           | None => (inl IndexError, self)
           end)
  /\ (forall st,
        fst (_generate_answer q ctx self) = inr st ->
        (EpistemicState.confidence st = CERTAIN <->
         is_Some (first_key_in knowledge_base query_lower))).
Proof.
  intros Hcls. cbv zeta.
  split; [| split].
  - intros cap. rewrite assess_confidence_run, Hcls. simpl.
    rewrite first_key_in_any. unfold CustomerCareAgent_assess_confidence.
    fold (Str.any_in (map fst knowledge_base) (Str.lower (Query.content q))).
    destruct (Str.any_in _ _); [split; reflexivity |].
    split; [| discriminate]. intros [= Heq]. revert Heq. split_match; discriminate.
  - intros key value Hhit. split; [apply first_key_in_some, Hhit |].
    unfold _generate_answer. run_M. rewrite Hcls.
    unfold CustomerCareAgent_generate_answer. rewrite Hhit. run_M.
    destruct (Agent.boundaries self !! 0%nat); reflexivity.
  - intros st. unfold _generate_answer. run_M. rewrite Hcls.
    unfold CustomerCareAgent_generate_answer.
    destruct (first_key_in knowledge_base _) as [[key value]|]; run_M.
    + destruct (Agent.boundaries self !! 0%nat); simpl; [| discriminate].
      intros [= <-]. simpl. split; eauto.
    + split_match; intros [= <-]; simpl;
        rewrite ?to_epistemic_state_confidence;
        (split; [discriminate | intros [x Hx]; discriminate]).
Qed.

End KnowledgeBase.

(** The customer care agent on the opening-hours query: the first key of
    the knowledge base, [hours], occurs in the content. *)
Lemma customer_care_certain_on_knowledge_base_witness :
  exists self,
    CustomerCareAgent_init "care_agent_001" = inr self
    /\ forall st,
         fst (@_generate_answer sample_ax sample_hx hours_query care_context self)
         = inr st ->
         EpistemicState.confidence st = CERTAIN.
Proof.
  eexists. split; [reflexivity |]. intros st Hst.
  match type of Hst with
  | fst (_generate_answer _ _ ?a) = _ =>
      apply (proj2 (proj2
        (@customer_care_certain_on_knowledge_base sample_ax sample_hx
           CustomerCareAgent_knowledge_base hours_query care_context a eq_refl))
        st Hst)
  end.
  vm_compute. eauto.
Defined.

(** ** The answers of the mental health agent *)

Lemma coping_guidance_cases (query : string) :
  Str.any_in ["breathing"; "grounding"; "mindfulness"] query = true ->
  (Str.contains "breathing" query = true
   /\ _get_coping_technique_guidance query = box_breathing_text)
  \/ (Str.contains "breathing" query = false
      /\ Str.contains "grounding" query = true
      /\ _get_coping_technique_guidance query = grounding_text)
  \/ (Str.contains "breathing" query = false
      /\ Str.contains "grounding" query = false
      /\ Str.contains "mindfulness" query = true
      /\ _get_coping_technique_guidance query = mindfulness_text).
Proof.
  unfold Str.any_in, _get_coping_technique_guidance. simpl.
  destruct (Str.contains "breathing" query); [auto |].
  destruct (Str.contains "grounding" query); [auto 6 |].
  destruct (Str.contains "mindfulness" query); [auto 8 | discriminate].
Qed.

Section MentalHealth.
Context `{PactAx} `{PactHx}.

(** X7. The answer generator of the mental health agent never raises,
    whatever the agent holds.  Its answer is CERTAIN exactly when the
    crisis detector triggers on the content, and it is then the crisis
    state.  Without a crisis, a content that requires a human gets an
    UNKNOWN state that carries the delegation map of the agent, whatever
    technique or topic the content names. *)
Theorem mental_health_certain_iff_crisis
    session_history (q : Query.t) (ctx : ExpressionContext.t) (self : Agent.t) :
  Agent.cls self = MentalHealthSupportAgent session_history ->
  exists st,
    _generate_answer q ctx self = (inr st, self)
    /\ (EpistemicState.confidence st = CERTAIN <->
        fst (check_for_crisis (Query.content q)) = true)
    /\ (fst (check_for_crisis (Query.content q)) = true -> st = crisis_state)
    /\ (fst (check_for_crisis (Query.content q)) = false ->
        check_requires_human (Query.content q) = true ->
        EpistemicState.confidence st = UNKNOWN
        /\ EpistemicState.uncertainty_reason st
           = Some "Topic requires licensed clinical expertise"
        /\ EpistemicState.delegation_map st = Some (Agent.delegation_map self)).
Proof.
  intros Hcls. unfold _generate_answer. run_M. rewrite Hcls.
  unfold MentalHealthSupportAgent_generate_answer.
  destruct (check_for_crisis (Query.content q)) as [[|] crisis_type]; simpl.
  - eexists. split; [reflexivity |]. repeat split; auto; discriminate.
  - destruct (check_requires_human (Query.content q)); run_M.
    + eexists. split; [reflexivity |]. simpl.
      repeat split; auto; discriminate.
    + split_match; (eexists; split; [reflexivity |]); simpl;
        rewrite ?to_epistemic_state_confidence;
        repeat split; auto; discriminate.
Qed.

(** X8. A CONFIDENT answer of the mental health agent is a coping
    technique: its source is [evidence_based_techniques] and its value is
    the guidance for breathing, for grounding or for mindfulness, in this
    order of preference when the content names several.  The fallback text
    of [_get_coping_technique_guidance] is never the value of such an
    answer. *)
Theorem mental_health_confident_is_technique
    session_history (q : Query.t) (ctx : ExpressionContext.t) (self : Agent.t)
    (st : EpistemicState.t) :
  Agent.cls self = MentalHealthSupportAgent session_history ->
  fst (_generate_answer q ctx self) = inr st ->
  EpistemicState.confidence st = CONFIDENT ->
  let query_lower := Str.lower (Query.content q) in
  EpistemicState.source st = Some "evidence_based_techniques"
  /\ EpistemicState.value st = Some (_get_coping_technique_guidance query_lower)
  /\ EpistemicState.value st <> Some coping_fallback_text
  /\ ((Str.contains "breathing" query_lower = true
       /\ EpistemicState.value st = Some box_breathing_text)
      \/ (Str.contains "breathing" query_lower = false
          /\ Str.contains "grounding" query_lower = true
          /\ EpistemicState.value st = Some grounding_text)
      \/ (Str.contains "breathing" query_lower = false
          /\ Str.contains "grounding" query_lower = false
          /\ Str.contains "mindfulness" query_lower = true
          /\ EpistemicState.value st = Some mindfulness_text)).
Proof.
  intros Hcls. cbv zeta. unfold _generate_answer.
  unfold mbind at 1, M_bind at 1, bind at 1, gets at 1. rewrite Hcls.
  unfold MentalHealthSupportAgent_generate_answer.
  set (query_lower := Str.lower (Query.content q)).
  destruct (check_for_crisis (Query.content q)) as [[|] crisis_type].
  - intros [= <-]. discriminate.
  - destruct (check_requires_human (Query.content q)).
    + intros [= <-]. discriminate.
    + destruct (Str.any_in ["breathing"; "grounding"; "mindfulness"] query_lower)
        eqn:Hany.
      * intros [= <-] _.
        split; [reflexivity |]. split; [reflexivity |].
        cbn [EpistemicState.value].
        destruct (coping_guidance_cases _ Hany)
          as [[Hb ->] | [[Hb [Hg ->]] | [Hb [Hg [Hm ->]]]]];
          (split; [discriminate | auto 10]).
      * destruct (Str.any_in ["previous"; "last time"; "we discussed"; "progress"]
                    query_lower);
          [intros [= <-]; discriminate |].
        destruct (Str.any_in ["stress"; "sleep"; "routine"] query_lower);
          intros [= <-]; [discriminate |].
        rewrite to_epistemic_state_confidence. discriminate.
Qed.

End MentalHealth.

(** The mental health agent as constructed, on its crisis query. *)
Lemma mental_health_certain_iff_crisis_witness :
  exists self,
    MentalHealthSupportAgent_init "mh_support_001" = inr self
    /\ exists st,
         @_generate_answer sample_ax sample_hx crisis_query clinical_context self
         = (inr st, self)
         /\ EpistemicState.confidence st = CERTAIN.
Proof.
  eexists. split; [reflexivity |].
  match goal with
  | |- exists st, _ _ _ ?a = _ /\ _ =>
      destruct (@mental_health_certain_iff_crisis sample_ax sample_hx
                  MentalHealthSupportAgent_session_history
                  crisis_query clinical_context a eq_refl)
        as [st [Hrun [Hcertain _]]]
  end.
  exists st. split; [exact Hrun |]. apply Hcertain. reflexivity.
Defined.

(** The mental health agent as constructed, on the breathing query of its
    demo. *)
Lemma mental_health_confident_is_technique_witness :
  exists self,
    MentalHealthSupportAgent_init "mh_support_001" = inr self
    /\ exists st,
         fst (@_generate_answer sample_ax sample_hx breathing_query
                clinical_context self) = inr st
         /\ EpistemicState.value st = Some box_breathing_text.
Proof.
  eexists. split; [reflexivity |].
  match goal with
  | |- exists st, fst (_generate_answer _ _ ?a) = _ /\ _ =>
      eexists; split; [reflexivity |];
      match goal with
      | |- EpistemicState.value ?st = _ =>
          pose proof (@mental_health_confident_is_technique sample_ax sample_hx
                        MentalHealthSupportAgent_session_history breathing_query
                        clinical_context a st eq_refl eq_refl eq_refl) as Hthm
      end
  end.
  destruct Hthm as [_ [Hvalue _]]. rewrite Hvalue. reflexivity.
Defined.

(** ** The answers of the voice assistant *)

Ltac run_in Hst :=
  unfold mbind, M_bind, mret, M_ret, bind, ret, raise, gets, getitem in Hst;
  simpl in Hst.

Ltac run_goal :=
  unfold mbind, M_bind, mret, M_ret, bind, ret, raise, gets, getitem; simpl.

Section Voice.
Context `{PactAx} `{PactHx}.

Lemma voice_generate_answer_dispatch knowledge q ctx (self : Agent.t) :
  Agent.cls self = VoiceAIAssistant knowledge ->
  _generate_answer q ctx self
  = VoiceAIAssistant_generate_answer knowledge q ctx self.
Proof.
  intros Hcls. unfold _generate_answer.
  unfold mbind at 1, M_bind at 1, bind at 1, gets at 1. rewrite Hcls.
  reflexivity.
Qed.

(** X9. The voice assistant looks for a word of current events first: a
    content that contains one gets the UNKNOWN state with the delegation map
    of the agent, whatever else it asks for.  Its answer is CERTAIN only for
    a capital: the content has no word of current events, it contains
    [capital] and the key of a country, and the value names the first such
    country of the knowledge.  When the knowledge has no entry [capital],
    such a content raises [KeyError]. *)
Theorem voice_current_events_first
    knowledge (q : Query.t) (ctx : ExpressionContext.t) (self : Agent.t) :
  Agent.cls self = VoiceAIAssistant knowledge ->
  let query_lower := Str.lower (Query.content q) in
  (Str.any_in current_indicators query_lower = true ->
   _generate_answer q ctx self
   = (inr (EpistemicState.mk
             (Some "I don't have access to real-time information")
             UNKNOWN
             (Some "No real-time data access")
             None (Some (Agent.delegation_map self)) None),
      self))
  /\ (Str.any_in current_indicators query_lower = false ->
      Str.contains "capital" query_lower = true ->
      assoc "capital" knowledge = None ->
      _generate_answer q ctx self = (inl (KeyError "capital"), self))
  /\ (forall st,
        fst (_generate_answer q ctx self) = inr st ->
        EpistemicState.confidence st = CERTAIN ->
        Str.any_in current_indicators query_lower = false
        /\ Str.contains "capital" query_lower = true
        /\ exists capitals country capital,
             assoc "capital" knowledge = Some capitals
             /\ first_key_in capitals query_lower = Some (country, capital)
             /\ EpistemicState.value st
                = Some ("The capital of " +:+ Str.title country
                        +:+ " is " +:+ capital)
             /\ EpistemicState.source st = Some "knowledge_base").
Proof.
  intros Hcls. cbv zeta.
  rewrite (voice_generate_answer_dispatch knowledge q ctx self Hcls).
  unfold VoiceAIAssistant_generate_answer.
  split; [| split].
  - intros ->. reflexivity.
  - intros -> -> Hassoc. run_goal. rewrite Hassoc. reflexivity.
  - intros st.
    destruct (Str.any_in current_indicators (Str.lower (Query.content q))).
    { intros Hst Hcertain. run_in Hst. injection Hst as <-. discriminate. }
    destruct (Str.contains "capital" (Str.lower (Query.content q))).
    + run_goal. destruct (assoc "capital" knowledge) as [capitals|]; simpl;
        [| discriminate].
      destruct (first_key_in capitals _) as [[country capital]|] eqn:Hhit; simpl.
      * intros [= <-] _. split; [reflexivity |]. split; [reflexivity |].
        exists capitals, country, capital. auto.
      * split_match; try discriminate;
          intros Hst Hcertain; injection Hst as <-; simpl in Hcertain;
          rewrite ?to_epistemic_state_confidence in Hcertain; discriminate.
    + run_goal. split_match; try discriminate;
        intros Hst Hcertain; injection Hst as <-; simpl in Hcertain;
        rewrite ?to_epistemic_state_confidence in Hcertain; discriminate.
Qed.

End Voice.

(** The voice assistant as constructed, on the news query of its demo:
    [news] and [today] are words of current events. *)
Lemma voice_current_events_first_witness :
  exists self,
    VoiceAIAssistant_init "voice_001" = inr self
    /\ exists st,
         @_generate_answer sample_ax sample_hx
           (Query.mk "What happened in the news today?" "current_events" (7 # 10))
           voice_context self = (inr st, self)
         /\ EpistemicState.confidence st = UNKNOWN.
Proof.
  eexists. split; [reflexivity |].
  match goal with
  | |- exists st, _generate_answer ?q _ ?a = _ /\ _ =>
      pose proof (proj1
        (@voice_current_events_first sample_ax sample_hx
           VoiceAIAssistant_knowledge q voice_context a eq_refl) eq_refl) as Hrun
  end.
  eexists. split; [exact Hrun | reflexivity].
Defined.

(** ** The statistics *)

Lemma count_where_le {A} (p : A -> bool) (xs : list A) :
  (count_where p xs <= length xs)%nat.
Proof. induction xs as [|x xs IH]; simpl; [lia | destruct (p x); lia]. Qed.

Lemma count_where_app {A} (p : A -> bool) (xs ys : list A) :
  count_where p (xs ++ ys) = (count_where p xs + count_where p ys)%nat.
Proof. induction xs as [|x xs IH]; simpl; [reflexivity | rewrite IH; lia]. Qed.

Lemma count_where_all {A} (p : A -> bool) (xs : list A) :
  count_where p xs = length xs <-> Forall (fun x => p x = true) xs.
Proof.
  induction xs as [|x xs IH]; simpl.
  - split; auto.
  - pose proof (count_where_le p xs). destruct (p x) eqn:Hp; split.
    + intros Heq. constructor; [exact Hp | apply IH; lia].
    + intros Hall. inversion Hall; subst. f_equal. apply IH. assumption.
    + intros Heq. lia.
    + intros Hall. inversion Hall; congruence.
Qed.

Section Statistics.
Context `{PactAx} `{PactHx} `{PyFloat}.

Lemma get_stats_run (self : Agent.t) :
  get_stats self =
  (inr match Agent.interaction_history self with
       | [] => StatsMessage "No interactions yet"
       | _ :: _ => StatsReport (stats_report self)
       end,
   self).
Proof.
  unfold get_stats, stats_report. run_goal.
  destruct (Agent.interaction_history self); reflexivity.
Qed.

(** X10. [get_stats] never raises and leaves the agent unchanged.  It
    returns the message [No interactions yet] exactly when the interaction
    history is empty.  Otherwise the total is the length of the history and
    is positive, the deferred and the escalated counts are at most the total,
    the deferred count is the total exactly when every interaction was
    deferred, and the learning events count the learning log. *)
Theorem get_stats_counts (self : Agent.t) :
  snd (get_stats self) = self
  /\ (exists stats, fst (get_stats self) = inr stats)
  /\ (fst (get_stats self) = inr (StatsMessage "No interactions yet") <->
      Agent.interaction_history self = [])
  /\ (forall stats,
        fst (get_stats self) = inr (StatsReport stats) ->
        Stats.agent_id stats = Agent.id self
        /\ Stats.total_interactions stats
           = length (Agent.interaction_history self)
        /\ (0 < Stats.total_interactions stats)%nat
        /\ (Stats.deferred_count stats <= Stats.total_interactions stats)%nat
        /\ (Stats.escalated_count stats <= Stats.total_interactions stats)%nat
        /\ (Stats.deferred_count stats = Stats.total_interactions stats <->
            Forall (fun e => Interaction.deferred e = true)
                   (Agent.interaction_history self))
        /\ Stats.learning_events stats = length (Agent.learning_log self)).
Proof.
  rewrite get_stats_run. simpl.
  split; [reflexivity |]. split; [eauto |]. split.
  - destruct (Agent.interaction_history self); split;
      try reflexivity; discriminate.
  - intros stats Hstats.
    assert (stats = stats_report self /\ Agent.interaction_history self <> [])
      as [-> Hne].
    { destruct (Agent.interaction_history self); [discriminate |].
      injection Hstats as <-. split; [reflexivity | discriminate]. }
    clear Hstats. unfold stats_report. cbv zeta. simpl.
    pose proof (count_where_le Interaction.deferred
                  (Agent.interaction_history self)) as Hd.
    pose proof (count_where_le Interaction.should_escalate
                  (Agent.interaction_history self)) as He.
    repeat split; try assumption; try apply count_where_all.
    destruct (Agent.interaction_history self); [congruence | simpl; lia].
Qed.

(** X11. After a call of [handle] that returned, [get_stats] reports the
    statistics: the total is one more than the interactions logged before,
    and the deferred count is one more exactly when this call deferred. *)
Theorem get_stats_after_handle
    (now : Z) (q : Query.t) (ctx : ExpressionContext.t)
    (self self' : Agent.t) (response : Response.t) :
  handle now q ctx self = (inr response, self') ->
  exists stats e,
    self' = log_interaction e self
    /\ fst (get_stats self') = inr (StatsReport stats)
    /\ Stats.total_interactions stats
       = S (length (Agent.interaction_history self))
    /\ Stats.deferred_count stats
       = (count_where Interaction.deferred (Agent.interaction_history self)
          + (if Interaction.deferred e then 1 else 0))%nat
    /\ Stats.learning_events stats = length (Agent.learning_log self).
Proof.
  intros Hrun. pose proof (handle_frame now q ctx self) as Hh.
  rewrite Hrun in Hh. destruct Hh as [e ->].
  exists (stats_report (log_interaction e self)), e.
  split; [reflexivity |]. split.
  - rewrite get_stats_run.
    destruct (Agent.interaction_history (log_interaction e self)) eqn:Hh;
      [| reflexivity].
    simpl in Hh. destruct (Agent.interaction_history self); discriminate.
  - unfold stats_report. cbv zeta. simpl.
    rewrite length_app, count_where_app. simpl.
    repeat split; lia.
Qed.

End Statistics.

(** The customer care agent after the password query of its demo. *)
Lemma get_stats_after_handle_witness :
  exists self,
    CustomerCareAgent_init "care_agent_001" = inr self
    /\ exists self' response stats,
         @handle sample_ax sample_hx 0 password_query care_context self
         = (inr response, self')
         /\ fst (@get_stats sample_float self') = inr (StatsReport stats)
         /\ Stats.total_interactions stats = 1%nat.
Proof.
  eexists. split; [reflexivity |].
  match goal with
  | |- exists self' response stats, handle _ _ _ ?a = _ /\ _ =>
      destruct (@subclass_handle_returns sample_ax sample_hx 0 password_query
                  care_context a
                  (@reach_customer_care sample_ax sample_hx "care_agent_001" a
                     eq_refl)
                  ltac:(discriminate))
        as (response & e & Hrun & _);
      destruct (@get_stats_after_handle sample_ax sample_hx sample_float
                  0 password_query care_context a _ response Hrun)
        as (stats & e' & _ & Hstats & Htotal & _)
  end.
  eexists _, response, stats. split; [exact Hrun |].
  split; [exact Hstats | exact Htotal].
Defined.

(** ** The query loop of the demos *)

Section Loop.
Context `{PactAx} `{PactHx}.

(** X12. On an agent built by the constructor of a subclass, the query loop
    of the demos answers every call: it returns one response for each query
    and appends one interaction for each, in the order of the calls, with
    the content of its query and the time of its call; nothing is logged in
    between and the learning log is untouched. *)
Theorem handle_each_logs_every_call
    (calls : list (Z * Query.t)) (ctx : ExpressionContext.t) (self : Agent.t) :
  reachable self ->
  is_subclass self ->
  exists responses entries self',
    handle_each calls ctx self = (inr responses, self')
    /\ length responses = length calls
    /\ Agent.interaction_history self'
       = Agent.interaction_history self ++ entries
    /\ map Interaction.query entries = map (fun c => Query.content (snd c)) calls
    /\ map Interaction.timestamp entries = map fst calls
    /\ Agent.learning_log self' = Agent.learning_log self
    /\ reachable self'.
Proof.
  revert self. induction calls as [|[now q] calls IH]; intros self Hr Hsub.
  - exists [], [], self. simpl. rewrite app_nil_r. repeat split; auto.
  - destruct (subclass_handle_returns now q ctx self Hr Hsub)
      as (response & e & Hrun & Hq & _ & Ht & _).
    assert (reachable (log_interaction e self)) as Hr'.
    { pose proof (reach_handle now q ctx self Hr) as Hnext.
      rewrite Hrun in Hnext. exact Hnext. }
    destruct (IH (log_interaction e self) Hr' Hsub)
      as (responses & entries & self' & Hloop & Hlen & Hhist & Hqs & Hts & Hll & Hr'').
    exists (response :: responses), (e :: entries), self'.
    split.
    { simpl. unfold mbind at 1, M_bind at 1, bind at 1. rewrite Hrun.
      unfold mbind at 1, M_bind at 1, bind at 1. rewrite Hloop. reflexivity. }
    simpl. rewrite Hlen, Hhist, Hqs, Hts, Hq, Ht, Hll. simpl.
    rewrite <- app_assoc. repeat split; auto.
Qed.

End Loop.

(** The voice assistant on the first two queries of its demo. *)
Lemma handle_each_logs_every_call_witness :
  exists self,
    VoiceAIAssistant_init "voice_001" = inr self
    /\ exists responses self',
         @handle_each sample_ax sample_hx
           [(0%Z, Query.mk "What's the capital of France?" "general_knowledge" (7 # 10));
            (1%Z, Query.mk "What's the weather today?" "personal_assistant" (7 # 10))]
           voice_context self
         = (inr responses, self')
         /\ length (Agent.interaction_history self') = 2%nat.
Proof.
  eexists. split; [reflexivity |].
  match goal with
  | |- exists responses self', handle_each ?calls _ ?a = _ /\ _ =>
      destruct (@handle_each_logs_every_call sample_ax sample_hx calls
                  voice_context a
                  (@reach_voice sample_ax sample_hx "voice_001" a eq_refl)
                  ltac:(discriminate))
        as (responses & entries & self' & Hloop & _ & Hhist & Hqs & _)
  end.
  exists responses, self'. split; [exact Hloop |].
  rewrite Hhist. simpl.
  apply (f_equal (@length string)) in Hqs. rewrite length_map in Hqs. exact Hqs.
Defined.

(** ** Learning the same outcome twice *)

Lemma add_limit_twice (text : string) (b : KnowledgeBoundary.t) :
  add_limit text (add_limit text b) = add_limit text b.
Proof.
  unfold add_limit. simpl. f_equal.
  rewrite (assoc_L (∪)), (idemp_L (∪)). reflexivity.
Qed.

Lemma add_capability_twice (text : string) (b : KnowledgeBoundary.t) :
  add_capability text (add_capability text b) = add_capability text b.
Proof.
  unfold add_capability. simpl. f_equal.
  rewrite (assoc_L (∪)), (idemp_L (∪)). reflexivity.
Qed.

Lemma on_domain_twice domain f boundaries :
  (forall b, KnowledgeBoundary.domain (f b) = KnowledgeBoundary.domain b) ->
  (forall b, f (f b) = f b) ->
  on_domain domain f (on_domain domain f boundaries)
  = on_domain domain f boundaries.
Proof.
  intros Hdomain Htwice. unfold on_domain. rewrite map_map.
  apply map_ext. intros b.
  destruct (decide (KnowledgeBoundary.domain b = domain)) as [Hd|Hd].
  - rewrite decide_True by (rewrite Hdomain; exact Hd). apply Htwice.
  - rewrite decide_False by exact Hd. reflexivity.
Qed.

Section LearningTwice.
Context `{PactAx} `{PactHx}.

Lemma learn_from_outcome_boundaries now q st outcome feedback (self : Agent.t) :
  Agent.boundaries (snd (learn_from_outcome now q st outcome feedback self)) =
  let score := level_value (EpistemicState.confidence st) in
  if negb outcome && Qltb (6 # 10) score
  then on_domain (Query.domain q) (add_limit (Query.content q))
         (Agent.boundaries self)
  else if outcome && Qltb score (1 # 2)
  then on_domain (Query.domain q) (add_capability (Query.content q))
         (Agent.boundaries self)
  else Agent.boundaries self.
Proof.
  rewrite learn_from_outcome_run. cbv zeta.
  destruct outcome; simpl.
  - destruct (Qltb _ (1 # 2)); simpl;
      [apply update_matching_capability | reflexivity].
  - destruct (Qltb (6 # 10) _); simpl;
      [apply update_matching_limit | reflexivity].
Qed.

(** X14. Learning the same outcome of the same query a second time changes
    no boundary: the content is already in the set it is added to.  The
    learning log still receives one event for each call.  Learning never
    changes the number, the order or the domains of the boundaries. *)
Theorem learn_from_outcome_twice
    (now1 now2 : Z) (q : Query.t) (st : EpistemicState.t)
    (outcome : bool) (feedback : option string) (self : Agent.t) :
  let self1 := snd (learn_from_outcome now1 q st outcome feedback self) in
  let self2 := snd (learn_from_outcome now2 q st outcome feedback self1) in
  Agent.boundaries self2 = Agent.boundaries self1
  /\ length (Agent.learning_log self2)
     = S (S (length (Agent.learning_log self)))
  /\ map KnowledgeBoundary.domain (Agent.boundaries self1)
     = map KnowledgeBoundary.domain (Agent.boundaries self).
Proof.
  cbv zeta. split; [| split].
  - rewrite !learn_from_outcome_boundaries. cbv zeta.
    destruct (negb outcome && Qltb (6 # 10) _).
    + apply on_domain_twice; [reflexivity | apply add_limit_twice].
    + destruct (outcome && Qltb _ (1 # 2)); [| reflexivity].
      apply on_domain_twice; [reflexivity | apply add_capability_twice].
  - rewrite !learn_from_outcome_run. cbv zeta. simpl.
    destruct (negb outcome && Qltb (6 # 10) _);
      destruct (outcome && Qltb _ (1 # 2)); simpl;
      rewrite !length_app; simpl; lia.
  - rewrite learn_from_outcome_boundaries. cbv zeta. unfold on_domain.
    destruct (negb outcome && Qltb (6 # 10) _);
      [| destruct (outcome && Qltb _ (1 # 2))];
      try reflexivity;
      rewrite map_map; apply map_ext; intros b; case_decide; reflexivity.
Qed.

End LearningTwice.

(** ** Queries without content *)

(** X15. A query with an empty content selects the first declared
    capability as soon as that capability declares a topic, whatever the
    domain of the query: the empty string is part of every topic. *)
Theorem empty_content_selects_first_capability
    (cap : AgentCapability.t) (rest : list AgentCapability.t)
    (domain : string) (required_confidence : Q) :
  AgentCapability.topics cap <> [] ->
  relevant_capability (cap :: rest) (Query.mk "" domain required_confidence)
  = Some cap.
Proof.
  intros Htopics. simpl.
  assert (AgentCapability.can_handle cap "" = true) as ->.
  { apply can_handle_iff.
    destruct (AgentCapability.topics cap) as [|t ts]; [congruence |].
    exists t. split; [left; reflexivity | apply substring_of_empty]. }
  rewrite orb_true_r. reflexivity.
Qed.

Lemma empty_content_selects_first_capability_witness :
  relevant_capability VoiceAIAssistant_capabilities
    (Query.mk "" "current_events" (7 # 10))
  = VoiceAIAssistant_capabilities !! 0%nat.
Proof.
  apply (empty_content_selects_first_capability _ _ "current_events" (7 # 10)).
  discriminate.
Defined.

(** ** An answer is not checked against the required confidence *)

Section Unchecked.
Context `{PactAx} `{PactHx}.

(** X16. [handle] tests the assessment only, never the answer.  Whenever
    its test on the assessment of a voice assistant does not defer and the
    content names current events, the answer is the UNKNOWN state; [handle]
    renders it without a delegate and logs it as not deferred, with the
    score of UNKNOWN. *)
Theorem voice_unknown_answer_not_deferred
    (now : Z) (q : Query.t) (ctx : ExpressionContext.t) (self : Agent.t)
    knowledge (st : EpistemicState.t) :
  Agent.cls self = VoiceAIAssistant knowledge ->
  assess_capability q self = (inr st, self) ->
  should_defer st (Query.domain q) (Query.required_confidence q) = false ->
  Str.any_in current_indicators (Str.lower (Query.content q)) = true ->
  exists answer e,
    EpistemicState.confidence answer = UNKNOWN
    /\ EpistemicState.delegation_map answer = Some (Agent.delegation_map self)
    /\ handle now q ctx self
       = (inr (express answer ctx (Query.content q) None),
          log_interaction e self)
    /\ Interaction.deferred e = false
    /\ Interaction.confidence e = level_value UNKNOWN.
Proof.
  intros Hcls Ha Htest Hany.
  rewrite (handle_after_assessment now q ctx self st Ha), Htest.
  rewrite answer_arm_run.
  rewrite (voice_generate_answer_dispatch knowledge q ctx self Hcls).
  unfold VoiceAIAssistant_generate_answer. rewrite Hany.
  eexists _, _. split; [| split; [| split; [reflexivity |]]];
    [reflexivity | reflexivity | split; reflexivity].
Qed.

End Unchecked.

(** The voice assistant as constructed, on the weather query of its demo:
    [today] is a word of current events. *)
Lemma voice_unknown_answer_not_deferred_witness :
  exists self,
    VoiceAIAssistant_init "voice_001" = inr self
    /\ exists response e,
         @handle sample_ax sample_hx 0
           (Query.mk "What's the weather today?" "personal_assistant" (7 # 10))
           voice_context self
         = (inr response, log_interaction e self)
         /\ Interaction.deferred e = false
         /\ (Interaction.confidence e == 0)%Q.
Proof.
  eexists. split; [reflexivity |].
  match goal with
  | |- exists response e, handle _ ?q _ ?a = _ /\ _ =>
      destruct (@voice_unknown_answer_not_deferred sample_ax sample_hx
                  0 q voice_context a VoiceAIAssistant_knowledge
                  (can_handle_state CONFIDENT
                     (boundary_of
                        (AgentCapability.mk "general_knowledge"
                           ["facts"; "definitions"; "explanations"; "history"]
                           CONFIDENT (7 # 10, 9 # 10))))
                  eq_refl
                  ltac:(rewrite (@assess_capability_run sample_ax sample_hx);
                        reflexivity)
                  eq_refl eq_refl)
        as (answer & e & _ & _ & Hrun & Hdeferred & Hconfidence)
  end.
  eexists _, e. split; [exact Hrun |]. split; [exact Hdeferred |].
  rewrite Hconfidence. reflexivity.
Defined.
